(** * Transcript extractor: a shallow embedding of
      [src/extension/transcript-extractor.js]

    The JavaScript class [TranscriptExtractor] scrapes (timestamp, content)
    pairs out of a DOM subtree and offers them as a list, as joined text, on
    the clipboard, as a downloaded file and as a summary.  The embedding
    keeps the shape of the source: a DOM tree with tree-order traversal, the
    selector matching the three constants of the constructor need, JavaScript
    strings as sequences of UTF-16 code units, and a small monad for console
    output, clipboard and file-save effects and for exceptions. *)

From Stdlib Require Import String Ascii DecimalString.
From Stdlib Require Import NArith Arith Bool Lia Sorted List.
Import ListNotations.

Set Implicit Arguments.

(* ================================================================= *)
(** ** JavaScript strings *)

Module JSString.

(** A JavaScript string is a finite sequence of 16-bit code units;
    [s.length] is the number of code units. *)
Definition codeUnit := N.
Definition t := list codeUnit.

(** A literal of the source (all of them are ASCII). *)
Definition lit (s : string) : t :=
  List.map N_of_ascii (list_ascii_of_string s).
#[global] Arguments lit s%_string.

(** The empty string. *)
Definition empty : t := [].

Definition eqb (a b : t) : bool :=
  if list_eq_dec N.eq_dec a b then true else false.

(** ECMAScript WhiteSpace and LineTerminator code points: what
    [String.prototype.trim] strips and what the regular expression class
    [\s] matches. *)
Definition isWhiteSpace (c : codeUnit) : bool :=
  ((c =? 0x0009) || (c =? 0x000A) || (c =? 0x000B) || (c =? 0x000C)
   || (c =? 0x000D) || (c =? 0x0020) || (c =? 0x00A0) || (c =? 0x1680)
   || ((0x2000 <=? c) && (c <=? 0x200A))
   || (c =? 0x2028) || (c =? 0x2029) || (c =? 0x202F) || (c =? 0x205F)
   || (c =? 0x3000) || (c =? 0xFEFF))%N.

Fixpoint trimStart (s : t) : t :=
  match s with
  | c :: r => if isWhiteSpace c then trimStart r else s
  | [] => []
  end.

Definition trimEnd (s : t) : t := rev (trimStart (rev s)).

(** [s.trim()] *)
Definition trim (s : t) : t := trimEnd (trimStart s).

(** [arr.join(sep)] on an array of strings, as ECMAScript gives it: the
    accumulator [R] starts empty, and for each index [k] the separator is
    appended first when [k > 0], then the element. *)
Fixpoint joinFrom (sep : t) (R : t) (k : nat) (arr : list t) : t :=
  match arr with
  | [] => R
  | x :: rest =>
      let R1 := match k with O => R | S _ => R ++ sep end in
      joinFrom sep (R1 ++ x) (S k) rest
  end.

Definition join (arr : list t) (sep : t) : t := joinFrom sep [] 0 arr.

(** [s.split(/\s+/)]: the ECMAScript split loop specialised to the
    pattern [\s+], scanning the code units once.  [piece] holds the code
    units of the piece being collected; a match starts exactly at a
    white-space code unit and, the quantifier being greedy, runs to the
    end of the white-space run ([inMatch] says that the scan is inside
    one).  At the start of a match the piece collected so far is emitted;
    at the end of the string the last piece is emitted, empty or not. *)
Fixpoint splitLoop (inMatch : bool) (piece : t) (s : t) : list t :=
  match s with
  | [] => [piece]
  | c :: r =>
      if isWhiteSpace c then
        if inMatch then splitLoop true piece r
        else piece :: splitLoop true [] r
      else splitLoop false (piece ++ [c]) r
  end.

(** The empty string is the special case of the algorithm: the pattern
    does not match it, and the result is the array holding the string. *)
Definition splitWhiteSpace (s : t) : list t :=
  match s with
  | [] => [[]]
  | _ => splitLoop false [] s
  end.

(** [String(n)] for a non-negative integer, as template literals need. *)
Definition ofNat (n : nat) : t := lit (NilEmpty.string_of_uint (Nat.to_uint n)).

End JSString.

Definition jsstring : Type := JSString.t.
Definition js (s : string) : jsstring := JSString.lit s.
Arguments js s%_string.

(* ================================================================= *)
(** ** The document tree and the selectors of the extractor *)

Module DOM.

(** Nodes of the tree.  An element has a local name (lower case in an
    HTML document), attributes in source order and child nodes. *)
#[warnings="-register-all"]
Inductive Node : Type :=
| Element (localName : jsstring) (attributes : list (jsstring * jsstring))
          (childNodes : list Node)
| Text (data : jsstring)
| Comment (data : jsstring).

(** The document node: its children are the document element and any
    comments around it. *)
Record Document : Type := { docChildNodes : list Node }.

Definition isElement (n : Node) : bool :=
  match n with Element _ _ _ => true | _ => false end.

(** The element descendants of a node, in tree order (preorder,
    depth first), the node itself excluded. *)
Fixpoint descendants (n : Node) : list Node :=
  match n with
  | Element _ _ cs =>
      flat_map (fun c => if isElement c then c :: descendants c else []) cs
  | _ => []
  end.

(** All elements of a document, in tree order. *)
Definition documentElements (d : Document) : list Node :=
  flat_map (fun c => if isElement c then c :: descendants c else [])
           (docChildNodes d).

(** The data of the Text descendants of a node, concatenated in tree
    order; comments contribute nothing. *)
Fixpoint descendantText (n : Node) : jsstring :=
  match n with
  | Element _ _ cs => flat_map descendantText cs
  | Text d => d
  | Comment _ => []
  end.

(** [node.textContent]: on an element the descendant text, on a
    character-data node its data. *)
Definition textContent (n : Node) : jsstring :=
  match n with
  | Element _ _ _ => descendantText n
  | Text d => d
  | Comment d => d
  end.

(** [element.getAttribute(name)]: the first attribute of that name. *)
Fixpoint getAttribute (attrs : list (jsstring * jsstring)) (name : jsstring)
  : option jsstring :=
  match attrs with
  | [] => None
  | (k, v) :: rest =>
      if JSString.eqb k name then Some v else getAttribute rest name
  end.

(** ASCII white space separates the tokens of a [class] attribute. *)
Definition isAsciiWhitespace (c : N) : bool :=
  ((c =? 0x09) || (c =? 0x0A) || (c =? 0x0C) || (c =? 0x0D) || (c =? 0x20))%N.

Fixpoint tokens (cur : jsstring) (s : jsstring) : list jsstring :=
  match s with
  | [] => match cur with [] => [] | _ => [cur] end
  | c :: r =>
      if isAsciiWhitespace c
      then match cur with [] => tokens [] r | _ => cur :: tokens [] r end
      else tokens (cur ++ [c]) r
  end.

(** [element.classList] as a list of tokens. *)
Definition classList (n : Node) : list jsstring :=
  match n with
  | Element _ attrs _ =>
      match getAttribute attrs (js "class") with
      | Some v => tokens [] v
      | None => []
      end
  | _ => []
  end.

(** The simple selectors the source uses: a type selector ([div], [p],
    [button]), a class selector ([.name]) and an attribute selector with
    an exact value ([[name="value"]]).  A compound selector is a
    sequence of simple selectors that must all match. *)
Inductive SimpleSelector : Type :=
| TypeSel (name : jsstring)
| ClassSel (className : jsstring)
| AttrEqSel (name value : jsstring).

Definition Selector : Type := list SimpleSelector.

Definition matchesSimple (n : Node) (s : SimpleSelector) : bool :=
  match n with
  | Element name attrs _ =>
      match s with
      | TypeSel t => JSString.eqb name t
      | ClassSel c => existsb (JSString.eqb c) (classList n)
      | AttrEqSel a v =>
          match getAttribute attrs a with
          | Some v' => JSString.eqb v' v
          | None => false
          end
      end
  | _ => false
  end.

(** [element.matches(selector)] *)
Definition matches (sel : Selector) (n : Node) : bool :=
  forallb (matchesSimple n) sel.

(** [element.querySelectorAll(selector)]: the matching descendants in
    tree order. *)
Definition querySelectorAll (n : Node) (sel : Selector) : list Node :=
  filter (matches sel) (descendants n).

(** [element.querySelector(selector)]: the first matching descendant in
    tree order, [None] for [null]. *)
Definition querySelector (n : Node) (sel : Selector) : option Node :=
  find (matches sel) (descendants n).

(** [document.querySelector(selector)] *)
Definition documentQuerySelector (d : Document) (sel : Selector)
  : option Node :=
  find (matches sel) (documentElements d).

(** [document.body]: the first [body] or [frameset] child of the [html]
    document element, [None] for [null]. *)
Definition documentElement (d : Document) : option Node :=
  find isElement (docChildNodes d).

Definition body (d : Document) : option Node :=
  match documentElement d with
  | Some (Element name _ cs) =>
      if JSString.eqb name (js "html")
      then find (fun c => matches [TypeSel (js "body")] c
                          || matches [TypeSel (js "frameset")] c) cs
      else None
  | _ => None
  end.

End DOM.

(* ================================================================= *)
(** ** Effects: console, clipboard, file save, exceptions *)

Module Effect.

(** A thrown value: the platform's errors carry a name and a message. *)
Record JSError : Type := { errorName : jsstring; errorMessage : jsstring }.

(** A [Blob]: its parts and its MIME type. *)
Record Blob : Type := { blobParts : list jsstring; blobType : jsstring }.

(** What an operation does to the world outside the extractor, in the
    order in which it does it. *)
Inductive Event : Type :=
| ConsoleWarn (message : jsstring)
| ConsoleLog (message : jsstring)
| ConsoleError (message : jsstring) (error : JSError)
| ClipboardWriteText (text : jsstring)
| NewBlob (blob : Blob)
| CreateObjectURL (blob : Blob) (url : jsstring)
| CreateElement (localName : jsstring)
| AppendChild (href download : jsstring)
| Click (href download : jsstring)
| RemoveChild (href download : jsstring)
| RevokeObjectURL (url : jsstring).

(** The value a failed property read was made on. *)
Inductive Nullish : Type := JSNull | JSUndefined.

(** The platform around one call:
    - [document]: the document snapshot the call reads;
    - [navigatorClipboard]: [None] where [navigator.clipboard] is
      [undefined] (a page that is no secure context, a browser without the
      interface); otherwise the answer of [writeText] to a text, [None]
      for a fulfilled promise and [Some e] for one rejected with [e]
      (a denied permission, a document without focus);
    - [typeErrorMessage]: the message the engine gives the [TypeError] of
      a property read on [null] or [undefined], by the property read;
    - [mintObjectURL]: the URL minted by [URL.createObjectURL]. *)
Record Env : Type := {
  document : DOM.Document;
  navigatorClipboard : option (jsstring -> option JSError);
  typeErrorMessage : Nullish -> jsstring -> jsstring;
  mintObjectURL : Blob -> jsstring
}.

(** The observable state: the events so far and the clipboard text. *)
Record World : Type := {
  events : list Event;
  clipboard : option jsstring
}.

Inductive Completion (A : Type) : Type :=
| Normal (value : A)
| Throw (error : JSError).
Arguments Normal {A} value.
Arguments Throw {A} error.

Definition JS (A : Type) : Type := Env -> World -> Completion A * World.

Definition ret {A} (a : A) : JS A := fun _ w => (Normal a, w).

Definition bind {A B} (m : JS A) (k : A -> JS B) : JS B :=
  fun env w =>
    match m env w with
    | (Normal a, w') => k a env w'
    | (Throw e, w') => (Throw e, w')
    end.

Definition throw {A} (e : JSError) : JS A := fun _ w => (Throw e, w).

(** [try { body } catch (error) { handler }] *)
Definition tryCatch {A} (body : JS A) (handler : JSError -> JS A) : JS A :=
  fun env w =>
    match body env w with
    | (Normal a, w') => (Normal a, w')
    | (Throw e, w') => handler e env w'
    end.

Definition emit (e : Event) : JS unit :=
  fun _ w => (Normal tt, {| events := events w ++ [e]; clipboard := clipboard w |}).

Definition getDocument : JS DOM.Document :=
  fun env w => (Normal (document env), w).

Definition consoleWarn (msg : jsstring) : JS unit := emit (ConsoleWarn msg).
Definition consoleLog (msg : jsstring) : JS unit := emit (ConsoleLog msg).
Definition consoleError (msg : jsstring) (e : JSError) : JS unit :=
  emit (ConsoleError msg e).

(** A [TypeError] with the given message. *)
Definition typeError (msg : jsstring) : JSError :=
  {| errorName := js "TypeError"; errorMessage := msg |}.

(** The [TypeError] of reading [property] off [null] or [undefined], with
    the engine's message. *)
Definition engineTypeError (env : Env) (base : Nullish) (property : jsstring)
  : JSError :=
  typeError (typeErrorMessage env base property).

Definition throwTypeError {A} (base : Nullish) (property : jsstring) : JS A :=
  fun env w => (Throw (engineTypeError env base property), w).

(** How [await navigator.clipboard.writeText(text)] completes: [None]
    normally, [Some e] by throwing [e]. *)
Definition clipboardAnswer (env : Env) (text : jsstring) : option JSError :=
  match navigatorClipboard env with
  | None => Some (engineTypeError env JSUndefined (js "writeText"))
  | Some answer => answer text
  end.

(** [await navigator.clipboard.writeText(text)].  Where
    [navigator.clipboard] is [undefined] the read of [writeText] throws and
    nothing is requested.  Otherwise the request is made: granted, the
    clipboard holds [text]; rejected, the awaited expression throws. *)
Definition clipboardWriteText (text : jsstring) : JS unit :=
  fun env w =>
    match navigatorClipboard env with
    | None => (Throw (engineTypeError env JSUndefined (js "writeText")), w)
    | Some answer =>
        let w1 := {| events := events w ++ [ClipboardWriteText text];
                     clipboard := clipboard w |} in
        match answer text with
        | None => (Normal tt, {| events := events w1; clipboard := Some text |})
        | Some e => (Throw e, w1)
        end
    end.

Definition newBlob (parts : list jsstring) (type : jsstring) : JS Blob :=
  let b := {| blobParts := parts; blobType := type |} in
  fun _ w => (Normal b, {| events := events w ++ [NewBlob b];
                           clipboard := clipboard w |}).

Definition createObjectURL (b : Blob) : JS jsstring :=
  fun env w =>
    let url := mintObjectURL env b in
    (Normal url, {| events := events w ++ [CreateObjectURL b url];
                    clipboard := clipboard w |}).

(** [arr[i].property]: indexing past the end gives [undefined], and the
    property read on it throws. *)
Definition index {A} (arr : list A) (i : nat) (property : jsstring) : JS A :=
  match nth_error arr i with
  | Some a => ret a
  | None => throwTypeError JSUndefined property
  end.

(** A parameter with a default value: an omitted argument ([None]) takes
    the default. *)
Definition withDefault {A} (dflt : A) (arg : option A) : A :=
  match arg with Some a => a | None => dflt end.

(** Running an operation from a given world. *)
(** The world after some more events. *)
Definition addEvents (w : World) (es : list Event) : World :=
  {| events := events w ++ es; clipboard := clipboard w |}.

(** The texts handed to the clipboard, oldest first. *)
Definition clipboardRequests (es : list Event) : list jsstring :=
  flat_map (fun e => match e with ClipboardWriteText t => [t] | _ => [] end) es.

(** The events of a file save: blob, object URL, anchor, click. *)
Definition isFileSaveEvent (e : Event) : bool :=
  match e with
  | NewBlob _ | CreateObjectURL _ _ | CreateElement _ | AppendChild _ _
  | Click _ _ | RemoveChild _ _ | RevokeObjectURL _ => true
  | _ => false
  end.

Definition result {A} (m : JS A) (env : Env) (w : World) : Completion A :=
  fst (m env w).
Definition after {A} (m : JS A) (env : Env) (w : World) : World :=
  snd (m env w).

End Effect.

Declare Scope js_scope.
Delimit Scope js_scope with js.
Notation "x <- m ;; k" := (Effect.bind m (fun x => k))
  (at level 61, m at next level, right associativity) : js_scope.
Notation "m ;; k" := (Effect.bind m (fun _ => k))
  (at level 61, right associativity) : js_scope.

(* ================================================================= *)
(** ** The class [TranscriptExtractor] *)

Module TranscriptExtractor.
Import DOM Effect.
Local Open Scope js_scope.

(** The fields set by the constructor. *)
Record t : Type := {
  transcriptBodySelector : Selector;
  timestampClass : jsstring;
  contentClass : jsstring
}.

(** [new TranscriptExtractor()]; the selector string
    [div[data-testid="transcript-body"]] is a type selector and an
    attribute selector. *)
Definition new : t := {|
  transcriptBodySelector :=
    [TypeSel (js "div"); AttrEqSel (js "data-testid") (js "transcript-body")];
  timestampClass := js "MuiTypography-uiBodySmall";
  contentClass := js "MuiTypography-uiBody"
|}.

(** One transcript entry, [{ timestamp, content }]. *)
Record Entry : Type := { timestamp : jsstring; content : jsstring }.

(** The object returned by [getSummary]; [None] is [null]. *)
Record Summary : Type := {
  totalEntries : nat;
  totalCharacters : nat;
  totalWords : nat;
  duration : jsstring;
  firstTimestamp : option jsstring;
  lastTimestamp : option jsstring
}.

(** The selector [`p.${cls}`]. *)
Definition pWithClass (cls : jsstring) : Selector :=
  [TypeSel (js "p"); ClassSel cls].

(** The callback of [buttons.forEach]: it pushes an entry onto
    [transcriptEntries] when both elements were found. *)
Definition visitButton (this : t) (transcriptEntries : list Entry)
           (button : Node) : list Entry :=
  let timestampElement := querySelector button (pWithClass (timestampClass this)) in
  let contentElement := querySelector button (pWithClass (contentClass this)) in
  match timestampElement, contentElement with
  | Some timestampElement, Some contentElement =>
      transcriptEntries ++
        [{| timestamp := JSString.trim (textContent timestampElement);
            content := JSString.trim (textContent contentElement) |}]
  | _, _ => transcriptEntries
  end.

Definition extractTranscript (this : t) : JS (list Entry) :=
  document <- getDocument ;;
  match documentQuerySelector document (transcriptBodySelector this) with
  | None =>
      consoleWarn (js "Transcript body not found on this page") ;;
      ret []
  | Some transcriptBody =>
      let buttons := querySelectorAll transcriptBody [TypeSel (js "button")] in
      let transcriptEntries := fold_left (visitButton this) buttons [] in
      ret transcriptEntries
  end.

Definition extractContentOnly (this : t) : JS (list jsstring) :=
  entries <- extractTranscript this ;;
  ret (map content entries).

Definition extractContentAsText (this : t) (separator : option jsstring)
  : JS jsstring :=
  let separator := withDefault (js " ") separator in
  content <- extractContentOnly this ;;
  ret (JSString.join content separator).

(** The template literal [`${entry.timestamp}: ${entry.content}`]. *)
Definition timestampedLine (entry : Entry) : jsstring :=
  timestamp entry ++ js ": " ++ content entry.

(** The text built by [copyToClipboard] and [downloadTranscript]. *)
Definition renderEntries (entries : list Entry) (includeTimestamps : bool)
           (separator : jsstring) : jsstring :=
  if includeTimestamps
  then JSString.join (map timestampedLine entries) separator
  else JSString.join (map content entries) separator.

Definition copyToClipboard (this : t) (includeTimestamps : option bool)
           (separator : option jsstring) : JS bool :=
  let includeTimestamps := withDefault false includeTimestamps in
  let separator := withDefault [10; 10]%N separator in
  tryCatch
    (entries <- extractTranscript this ;;
     if Nat.eqb (length entries) 0 then
       consoleWarn (js "No transcript content found") ;;
       ret false
     else
       let textToCopy := renderEntries entries includeTimestamps separator in
       clipboardWriteText textToCopy ;;
       consoleLog (js "Copied " ++ JSString.ofNat (length entries)
                   ++ js " transcript entries to clipboard") ;;
       ret true)
    (fun error =>
       consoleError (js "Failed to copy to clipboard:") error ;;
       ret false).

Definition downloadTranscript (this : t) (filename : option jsstring)
           (includeTimestamps : option bool) (separator : option jsstring)
  : JS unit :=
  let filename := withDefault (js "transcript.txt") filename in
  let includeTimestamps := withDefault false includeTimestamps in
  let separator := withDefault [10; 10]%N separator in
  entries <- extractTranscript this ;;
  if Nat.eqb (length entries) 0 then
    consoleWarn (js "No transcript content found") ;;
    ret tt
  else
    let content := renderEntries entries includeTimestamps separator in
    blob <- newBlob [content] (js "text/plain") ;;
    url <- createObjectURL blob ;;
    emit (CreateElement (js "a")) ;;
    document <- getDocument ;;
    match body document with
    | None => throwTypeError JSNull (js "appendChild")
    | Some _ =>
        emit (AppendChild url filename) ;;
        emit (Click url filename) ;;
        emit (RemoveChild url filename) ;;
        emit (RevokeObjectURL url) ;;
        consoleLog (js "Downloaded transcript with "
                    ++ JSString.ofNat (length entries) ++ js " entries")
    end.

Definition getSummary (this : t) : JS Summary :=
  entries <- extractTranscript this ;;
  content <- extractContentAsText this None ;;
  duration <- (if Nat.ltb 0 (length entries)
               then e <- index entries (length entries - 1) (js "timestamp") ;;
                    ret (timestamp e)
               else ret (js "00:00:00")) ;;
  firstTimestamp <- (if Nat.ltb 0 (length entries)
                     then e <- index entries 0 (js "timestamp") ;;
                          ret (Some (timestamp e))
                     else ret None) ;;
  lastTimestamp <- (if Nat.ltb 0 (length entries)
                    then e <- index entries (length entries - 1)
                                    (js "timestamp") ;;
                         ret (Some (timestamp e))
                    else ret None) ;;
  ret {| totalEntries := length entries;
         totalCharacters := length content;
         totalWords := length (JSString.splitWhiteSpace content);
         duration := duration;
         firstTimestamp := firstTimestamp;
         lastTimestamp := lastTimestamp |}.

End TranscriptExtractor.

(* ================================================================= *)
(** ** Concrete documents and platforms used as test inputs *)

Module Sample.
Import DOM Effect TranscriptExtractor.

Definition p (cls : string) (text : string) : Node :=
  Element (js "p") [(js "class", js cls)] [Text (js text)].

Definition button (children : list Node) : Node :=
  Element (js "button") [(js "type", js "button")] children.

Definition transcriptBody (children : list Node) : Node :=
  Element (js "div") [(js "data-testid", js "transcript-body")] children.

Definition page (bodyChildren : list Node) : Document :=
  {| docChildNodes :=
       [Comment (js "saved page");
        Element (js "html") []
          [Element (js "head") [] [];
           Element (js "body") [] bodyChildren]] |}.

(** The scenario of the specification: two candidates, ["00:00:01"] /
    ["Hello"] and ["00:00:05"] / ["world"], here with surrounding white
    space, further classes on the paragraphs and a third candidate
    that lacks its content paragraph. *)
Definition twoEntriesBody : Node :=
  transcriptBody
          [button [p "MuiTypography-root MuiTypography-uiBodySmall" " 00:00:01 ";
                   p "MuiTypography-root MuiTypography-uiBody" "Hello
"];
           button [p "MuiTypography-uiBodySmall" "00:00:03"];
           Element (js "div") []
             [button [p "MuiTypography-uiBodySmall" "00:00:05";
                      Element (js "span") []
                        [p "MuiTypography-uiBody" "world"]]]].

Definition twoEntries : Document := page [twoEntriesBody].

(** A page with the container but no candidate in it. *)
Definition emptyContainer : Document := page [transcriptBody []].

(** A page without the container. *)
Definition noContainer : Document :=
  page [Element (js "div") [(js "data-testid", js "other")]
          [button [p "MuiTypography-uiBodySmall" "00:00:01";
                   p "MuiTypography-uiBody" "Hello"]]].

Definition notAllowed : JSError :=
  {| errorName := js "NotAllowedError";
     errorMessage := js "Write permission denied." |}.

(** The messages of V8 for a property read on [null] or [undefined]. *)
Definition v8Message (base : Nullish) (property : jsstring) : jsstring :=
  js "Cannot read properties of "
  ++ match base with JSNull => js "null" | JSUndefined => js "undefined" end
  ++ js " (reading '" ++ property ++ js "')".

Definition env (d : Document) (granted : bool) : Env :=
  {| document := d;
     navigatorClipboard :=
       Some (fun _ => if granted then None else Some notAllowed);
     typeErrorMessage := v8Message;
     mintObjectURL := fun _ => js "blob:https://learning.oreilly.com/1" |}.

(** The same page where [navigator.clipboard] is [undefined]. *)
Definition envWithoutClipboard (d : Document) : Env :=
  {| document := d;
     navigatorClipboard := None;
     typeErrorMessage := v8Message;
     mintObjectURL := fun _ => js "blob:https://learning.oreilly.com/1" |}.

Definition start : World := {| events := []; clipboard := None |}.

End Sample.

(* ================================================================= *)
(** ** The vocabulary of the specification *)

Module Spec.
Import DOM Effect TranscriptExtractor.

(** The candidates of a container: its clickable descendants, in
    document order. *)
Definition candidates (container : Node) : list Node :=
  querySelectorAll container [TypeSel (js "button")].

(** A candidate has a descendant carrying the style-class marker. *)
Definition hasMarked (cls : jsstring) (candidate : Node) : bool :=
  existsb (matches (pWithClass cls)) (descendants candidate).

(** Well-formed: both a timestamp-marked and a content-marked
    descendant; malformed: at least one of the two is missing. *)
Definition wellFormed (this : t) (candidate : Node) : bool :=
  hasMarked (timestampClass this) candidate
  && hasMarked (contentClass this) candidate.

Definition malformed (this : t) (candidate : Node) : bool :=
  negb (hasMarked (timestampClass this) candidate)
  || negb (hasMarked (contentClass this) candidate).

(** The entry of a well-formed candidate: the trimmed text of its marked
    elements, the marked element being the one the lookup yields. *)
Definition entryOfCandidate (this : t) (candidate : Node) (e : Entry) : Prop :=
  exists timestampElement contentElement,
    querySelector candidate (pWithClass (timestampClass this))
      = Some timestampElement
    /\ querySelector candidate (pWithClass (contentClass this))
         = Some contentElement
    /\ timestamp e = JSString.trim (textContent timestampElement)
    /\ content e = JSString.trim (textContent contentElement).

(** Strings joined with a separator between neighbours. *)
Fixpoint joined (sep : jsstring) (l : list jsstring) : jsstring :=
  match l with
  | [] => []
  | x :: rest =>
      match rest with
      | [] => x
      | _ :: _ => x ++ sep ++ joined sep rest
      end
  end.

(** Total length of the strings of a list. *)
Definition totalLength (l : list jsstring) : nat :=
  fold_right (fun x n => length x + n) 0 l.

(** The value and the diagnostic of [extractTranscript] as functions of
    the document, for the equations of the operations built on it. *)
Definition extracted (this : t) (d : Document) : list Entry :=
  match documentQuerySelector d (transcriptBodySelector this) with
  | None => []
  | Some transcriptBody =>
      fold_left (visitButton this) (candidates transcriptBody) []
  end.

Definition missingDiagnostic (this : t) (d : Document) : list Event :=
  match documentQuerySelector d (transcriptBodySelector this) with
  | None => [ConsoleWarn (js "Transcript body not found on this page")]
  | Some _ => []
  end.

(** A string that does not start, or does not end, with white space. *)
Definition startsClean (s : jsstring) : Prop :=
  match s with
  | c :: _ => JSString.isWhiteSpace c = false
  | [] => True
  end.

Definition endsClean (s : jsstring) : Prop := startsClean (rev s).

(** A diagnostic is a console warning. *)
Definition isDiagnostic (e : Event) : Prop :=
  exists message, e = ConsoleWarn message.

End Spec.

(* ================================================================= *)
(** ** Document order, text and trimming, stated on their own

    The extraction is specified against notions that do not go through the
    functions the extractor calls: positions in the tree are paths of child
    indexes, document order is the order of paths, the text of an element
    is a relation on the tree, and trimming is a relation on strings. *)

Module DocOrder.
Import DOM TranscriptExtractor.

(** A path leads from a node to one of its descendants: the index of a
    child, then of a child of that child, and so on. *)
Definition Path : Type := list nat.

Fixpoint nodeAt (n : Node) (p : Path) : option Node :=
  match p with
  | [] => Some n
  | i :: rest =>
      match n with
      | Element _ _ cs =>
          match nth_error cs i with
          | Some c => nodeAt c rest
          | None => None
          end
      | _ => None
      end
  end.

(** Document order on paths: a node comes before its descendants, and the
    subtree of a child before the subtrees of the children after it. *)
Fixpoint before (p q : Path) : bool :=
  match p, q with
  | [], [] => false
  | [], _ :: _ => true
  | _ :: _, [] => false
  | i :: p', j :: q' => Nat.ltb i j || (Nat.eqb i j && before p' q')
  end.

Definition precedes (p q : Path) : Prop := before p q = true.

(** The first index of a path is at least [i]. *)
Definition headAtLeast (i : nat) (p : Path) : Prop :=
  match p with k :: _ => i <= k | [] => False end.

(** [el] is the element descendant of [root] at the path [p]. *)
Definition ElementAt (root : Node) (p : Path) (el : Node) : Prop :=
  p <> [] /\ nodeAt root p = Some el /\ isElement el = true.

(** [l] lists the element descendants of [root] that satisfy [P], each
    once, none missing, in document order. *)
Definition Listing (root : Node) (P : Node -> bool) (l : list Node) : Prop :=
  exists ps : list Path,
    Forall2 (ElementAt root) ps l
    /\ StronglySorted precedes ps
    /\ Forall (fun el => P el = true) l
    /\ forall p el, ElementAt root p el -> P el = true -> In p ps.

(** [el] is the first element descendant of [root], in document order,
    that satisfies [P]. *)
Definition First (root : Node) (P : Node -> bool) (el : Node) : Prop :=
  exists p : Path,
    ElementAt root p el
    /\ P el = true
    /\ forall q el', ElementAt root q el' -> P el' = true ->
                     q = p \/ precedes p q.

(** Some element descendant of [root] satisfies [P]. *)
Definition Some_ (root : Node) (P : Node -> bool) : Prop :=
  exists p el, ElementAt root p el /\ P el = true.

(** The text a node contributes to the text of an element around it: a
    text node its data, a comment nothing, an element the texts of its
    children one after the other. *)
#[warnings="-register-all"]
Inductive TextOf : Node -> jsstring -> Prop :=
| TextOfText (d : jsstring) : TextOf (Text d) d
| TextOfComment (d : jsstring) : TextOf (Comment d) []
| TextOfElement (name : jsstring) (attrs : list (jsstring * jsstring))
                (cs : list Node) (parts : list jsstring) :
    Forall2 TextOf cs parts ->
    TextOf (Element name attrs cs) (concat parts).

(** [t] is [raw] without the white space at its two ends. *)
Definition TrimOf (raw t : jsstring) : Prop :=
  exists pre post,
    raw = pre ++ t ++ post
    /\ forallb JSString.isWhiteSpace pre = true
    /\ forallb JSString.isWhiteSpace post = true
    /\ match t with
       | c :: _ => JSString.isWhiteSpace c = false
       | [] => True
       end
    /\ match rev t with
       | c :: _ => JSString.isWhiteSpace c = false
       | [] => True
       end.

(** A candidate is well-formed when it has a descendant carrying the
    timestamp marker and one carrying the content marker. *)
Definition WellFormed (this : t) (candidate : Node) : Prop :=
  Some_ candidate (matches (pWithClass (timestampClass this)))
  /\ Some_ candidate (matches (pWithClass (contentClass this))).

(** The entry of a candidate: the trimmed text of its first
    timestamp-marked and of its first content-marked descendant. *)
Definition EntryOf (this : t) (candidate : Node) (e : Entry) : Prop :=
  exists timestampElement contentElement timestampText contentText,
    First candidate (matches (pWithClass (timestampClass this)))
          timestampElement
    /\ First candidate (matches (pWithClass (contentClass this)))
             contentElement
    /\ TextOf timestampElement timestampText
    /\ TextOf contentElement contentText
    /\ TrimOf timestampText (timestamp e)
    /\ TrimOf contentText (content e).

(** The document seen as a tree: a root whose children are the
    document's. *)
Definition documentRoot (d : Document) : Node :=
  Element (js "#document") [] (docChildNodes d).

(** The element descendants of a node with their paths, for the proofs:
    child by child, each child before its own descendants. *)
Definition shift (i : nat) (x : Path * Node) : Path * Node :=
  (i :: fst x, snd x).

Definition chunk (rec : Node -> list (Path * Node)) (i : nat) (c : Node)
  : list (Path * Node) :=
  if isElement c then ([i], c) :: map (shift i) (rec c) else [].

Definition locatedChildren (rec : Node -> list (Path * Node))
  : nat -> list Node -> list (Path * Node) :=
  fix go (i : nat) (l : list Node) : list (Path * Node) :=
    match l with
    | [] => []
    | c :: r => chunk rec i c ++ go (S i) r
    end.

Fixpoint located (n : Node) : list (Path * Node) :=
  match n with
  | Element _ _ cs => locatedChildren located 0 cs
  | _ => []
  end.

End DocOrder.

(* ================================================================= *)
(** ** The object [TranscriptUtils] *)

Module TranscriptUtils.
Import DOM Effect TranscriptExtractor.

(** [quickCopy]: a fresh extractor, [copyToClipboard(false, ' ')]. *)
Definition quickCopy : JS bool :=
  let extractor := new in
  copyToClipboard extractor (Some false) (Some (js " ")).

(** [quickDownload]: a fresh extractor,
    [downloadTranscript('transcript.txt', false, ' ')]. *)
Definition quickDownload : JS unit :=
  let extractor := new in
  downloadTranscript extractor (Some (js "transcript.txt")) (Some false)
                     (Some (js " ")).

End TranscriptUtils.

(* ================================================================= *)
(** ** Vocabulary for the further properties *)

Module Props.
Import DOM Effect TranscriptExtractor Spec.

(** A string with no white space at either end. *)
Definition trimmed (s : jsstring) : Prop := startsClean s /\ endsClean s.

(** The number of pieces [split(/\s+/)] gives. *)
Definition pieceCount (s : jsstring) : nat :=
  length (JSString.splitWhiteSpace s).

(** No code unit of the string is white space. *)
Definition noWhiteSpace (s : jsstring) : bool :=
  forallb (fun c => negb (JSString.isWhiteSpace c)) s.

(** The words of a string: its maximal runs of code units that are not
    white space, in order. *)
Fixpoint wordsFrom (cur : jsstring) (s : jsstring) : list jsstring :=
  match s with
  | [] => match cur with [] => [] | _ :: _ => [cur] end
  | c :: r =>
      if JSString.isWhiteSpace c
      then match cur with
           | [] => wordsFrom [] r
           | _ :: _ => cur :: wordsFrom [] r
           end
      else wordsFrom (cur ++ [c]) r
  end.

Definition wordsOf (s : jsstring) : list jsstring := wordsFrom [] s.

Definition nonEmpty (s : jsstring) : bool :=
  match s with [] => false | _ :: _ => true end.

(** The events of one completed file save, in order. *)
Definition fileSaveEvents (text url filename : jsstring) (count : nat)
  : list Event :=
  let blob := {| blobParts := [text]; blobType := js "text/plain" |} in
  [NewBlob blob; CreateObjectURL blob url; CreateElement (js "a");
   AppendChild url filename; Click url filename; RemoveChild url filename;
   RevokeObjectURL url;
   ConsoleLog (js "Downloaded transcript with " ++ JSString.ofNat count
               ++ js " entries")].

(** The events of a file save that stops at the missing [document.body]. *)
Definition abortedSaveEvents (text url : jsstring) : list Event :=
  let blob := {| blobParts := [text]; blobType := js "text/plain" |} in
  [NewBlob blob; CreateObjectURL blob url; CreateElement (js "a")].

(** The object URLs created, and those revoked, by a run of events. *)
Definition urlsCreated (es : list Event) : list jsstring :=
  flat_map (fun e => match e with CreateObjectURL _ u => [u] | _ => [] end) es.

Definition urlsRevoked (es : list Event) : list jsstring :=
  flat_map (fun e => match e with RevokeObjectURL u => [u] | _ => [] end) es.

(** The number of nodes of a subtree. *)
Fixpoint nodeSize (n : Node) : nat :=
  match n with
  | Element _ _ cs => S (list_sum (map nodeSize cs))
  | Text _ => 1
  | Comment _ => 1
  end.

(** Induction on the document tree, the children of an element
    included. *)
Fixpoint Node_tree_ind (P : Node -> Prop)
  (HE : forall name attrs cs, Forall P cs -> P (Element name attrs cs))
  (HT : forall d, P (Text d)) (HC : forall d, P (Comment d))
  (n : Node) : P n :=
  match n with
  | Element name attrs cs =>
      HE name attrs cs
         ((fix children (l : list Node) : Forall P l :=
             match l with
             | [] => Forall_nil P
             | c :: r =>
                 Forall_cons c (Node_tree_ind HE HT HC c) (children r)
             end) cs)
  | Text d => HT d
  | Comment d => HC d
  end.

End Props.

(* ================================================================= *)
(** ** Further test inputs *)

Module MoreSamples.
Import DOM Effect TranscriptExtractor Sample.

(** A document whose [html] element holds the container directly: there
    is no [body]. *)
Definition bodyless : Document :=
  {| docChildNodes := [Element (js "html") [] [twoEntriesBody]] |}.

(** A candidate nested in another candidate. *)
Definition innerButton : Node :=
  button [p "MuiTypography-uiBodySmall" "00:00:07";
          p "MuiTypography-uiBody" "nested"].

Definition outerButton : Node :=
  button [Element (js "span") [] [innerButton]].

Definition nested : Document := page [transcriptBody [outerButton]].

(** The entries of [Sample.twoEntries]. *)
Definition helloWorld : list Entry :=
  [ {| timestamp := js "00:00:01"; content := js "Hello" |};
    {| timestamp := js "00:00:05"; content := js "world" |} ].

(** A page whose entries hold several words each. *)
Definition sentences : Document :=
  page [transcriptBody
          [button [p "MuiTypography-uiBodySmall" "00:00:01";
                   p "MuiTypography-uiBody" " Good  morning everyone "];
           button [p "MuiTypography-uiBodySmall" "00:00:04";
                   p "MuiTypography-uiBody" "welcome back"]]].

Definition sentenceEntries : list Entry :=
  [ {| timestamp := js "00:00:01"; content := js "Good  morning everyone" |};
    {| timestamp := js "00:00:04"; content := js "welcome back" |} ].

End MoreSamples.

(* ================================================================= *)
(** ** The popup script

    The popup script drives the extractor from the extension's popup: on a
    click it asks the browser for the active tab, has a function run in
    that tab's page, and reports the outcome in a status line that a timer
    hides again.  The popup page and the extension manifest are not part
    of the sources at hand: the status element the script looks up is
    taken to exist, and what the browser answers is a parameter. *)

Module Popup.
Import DOM Effect TranscriptExtractor.

(** The status element: the three properties the script sets. *)
Record StatusDiv : Type := {
  textContent : jsstring;
  className : jsstring;
  display : jsstring
}.

(** What the popup logs to its console: a label and an object. *)
Inductive Logged : Type :=
| LoggedEntries (label : jsstring) (entries : list Entry)
| LoggedSummary (label : jsstring) (summary : Summary).

Record Tab : Type := { tabId : nat }.

(** One element of the array [executeScript] resolves to; [None] is a
    [result] that is [null] or [undefined]. *)
Record InjectionResult (A : Type) : Type := { result : option A }.
Arguments result {A} _.

(** The browser around one click.
    - [queriedTabs]: what [await chrome.tabs.query(...)] gives;
    - [injection]: [Some e] when [executeScript] rejects with [e] before
      anything runs in the page (no access to the page, no such tab);
    - [contentScriptLoaded]: whether the class [TranscriptExtractor] is
      defined where the injected function runs; if not, the function
      throws a [ReferenceError];
    - [pageThrown]: what [executeScript] does when the injected function
      throws [e]: [None] when it still resolves, with a [null] result,
      [Some e'] when it rejects with [e'];
    - [page]: the page of a tab, as the extractor sees it;
    - [typeErrorMessage]: the message the popup's engine gives the
      [TypeError] of a property read on [null] or [undefined]. *)
Record Env : Type := {
  queriedTabs : Completion (list Tab);
  injection : nat -> option JSError;
  contentScriptLoaded : bool;
  pageThrown : JSError -> option JSError;
  page : nat -> Effect.Env;
  typeErrorMessage : Nullish -> jsstring -> jsstring
}.

(** The state a click changes: the status element, the pending timers
    (their delays, oldest first; every timer of the script hides the
    status), the popup's console, and the world of the page. *)
Record World : Type := {
  statusDiv : StatusDiv;
  timers : list nat;
  console : list Logged;
  pageWorld : Effect.World
}.

Definition P (A : Type) : Type := Env -> World -> Completion A * World.

Definition ret {A} (a : A) : P A := fun _ w => (Normal a, w).

Definition bind {A B} (m : P A) (k : A -> P B) : P B :=
  fun env w =>
    match m env w with
    | (Normal a, w') => k a env w'
    | (Throw e, w') => (Throw e, w')
    end.

Definition throw {A} (e : JSError) : P A := fun _ w => (Throw e, w).

(** The [TypeError] of reading [property] off [null] or [undefined]. *)
Definition throwTypeError {A} (base : Nullish) (property : jsstring) : P A :=
  fun env w => (Throw (typeError (typeErrorMessage env base property)), w).

Definition tryCatch {A} (body : P A) (handler : JSError -> P A) : P A :=
  fun env w =>
    match body env w with
    | (Normal a, w') => (Normal a, w')
    | (Throw e, w') => handler e env w'
    end.

(** [await chrome.tabs.query({active: true, currentWindow: true})] *)
Definition tabsQuery : P (list Tab) :=
  fun env w => (queriedTabs env, w).

(** [const [tab] = tabs] followed by the read of [tab.id]: with no tab,
    [tab] is [undefined] and the read throws. *)
Definition firstTabId (tabs : list Tab) : P nat :=
  match tabs with
  | tab :: _ => ret (tabId tab)
  | [] => throwTypeError JSUndefined (js "id")
  end.

Definition referenceError : JSError :=
  {| errorName := js "ReferenceError";
     errorMessage := js "TranscriptExtractor is not defined" |}.

(** [await chrome.scripting.executeScript({target: {tabId}, function})]:
    the function runs in the page of the tab, on the page's world, and the
    promise resolves to one result for the tab's main frame. *)
Definition executeScript {A} (id : nat) (function : JS A)
  : P (list (InjectionResult A)) :=
  fun env w =>
    match injection env id with
    | Some e => (Throw e, w)
    | None =>
        let injected :=
          if contentScriptLoaded env then function else Effect.throw referenceError in
        let (completion, pw) := injected (page env id) (pageWorld w) in
        let w' := {| statusDiv := statusDiv w; timers := timers w;
                     console := console w; pageWorld := pw |} in
        match completion with
        | Normal v => (Normal [ {| result := Some v |} ], w')
        | Throw e =>
            match pageThrown env e with
            | None => (Normal [ {| result := None |} ], w')
            | Some e' => (Throw e', w')
            end
        end
    end.

(** [result[0].result]: reading [result] off a missing element throws. *)
Definition firstResult {A} (results : list (InjectionResult A))
  : P (option A) :=
  match results with
  | r :: _ => ret (result r)
  | [] => throwTypeError JSUndefined (js "result")
  end.

(** The read of [name] on the script's result: a [null] result has no
    properties. *)
Definition property {A} (value : option A) (name : jsstring) : P A :=
  match value with
  | Some a => ret a
  | None => throwTypeError JSNull name
  end.

Definition consoleLog (l : Logged) : P unit :=
  fun _ w => (Normal tt,
              {| statusDiv := statusDiv w; timers := timers w;
                 console := console w ++ [l]; pageWorld := pageWorld w |}).

(** The status element as [showStatus] leaves it. *)
Definition shown (message : jsstring) (isError : bool) : StatusDiv :=
  {| textContent := message;
     className := js "status " ++ (if isError then js "error-status"
                                   else js "success-status");
     display := js "block" |}.

(** [showStatus(message, isError = false)]: sets the element and
    registers a timer of 3000 ms that hides it. *)
Definition showStatus (message : jsstring) (isError : option bool) : P unit :=
  let isError := withDefault false isError in
  fun _ w => (Normal tt,
              {| statusDiv := shown message isError;
                 timers := timers w ++ [3000];
                 console := console w; pageWorld := pageWorld w |}).

(** The oldest pending timer fires: its callback sets [display] to
    ['none'].  Timers of equal delay fire in the order of their
    registration. *)
Definition fireTimer (w : World) : World :=
  match timers w with
  | [] => w
  | _ :: pending =>
      {| statusDiv := {| textContent := textContent (statusDiv w);
                         className := className (statusDiv w);
                         display := js "none" |};
         timers := pending; console := console w; pageWorld := pageWorld w |}
  end.

(** The world after [showStatus] ran in [w]. *)
Definition statusShown (w : World) (message : jsstring) (isError : bool)
  : World :=
  {| statusDiv := shown message isError;
     timers := timers w ++ [3000];
     console := console w;
     pageWorld := pageWorld w |}.

(** The popup's world with the page's world replaced. *)
Definition withPage (w : World) (pw : Effect.World) : World :=
  {| statusDiv := statusDiv w; timers := timers w;
     console := console w; pageWorld := pw |}.

(** Running a handler from a given world. *)
Definition completion {A} (m : P A) (env : Env) (w : World) : Completion A :=
  fst (m env w).
Definition after {A} (m : P A) (env : Env) (w : World) : World :=
  snd (m env w).

End Popup.

Declare Scope popup_scope.
Delimit Scope popup_scope with popup.
Notation "x <- m ;; k" := (Popup.bind m (fun x => k))
  (at level 61, m at next level, right associativity) : popup_scope.
Notation "m ;; k" := (Popup.bind m (fun _ => k))
  (at level 61, right associativity) : popup_scope.

Module PopupHandlers.
Import DOM Effect TranscriptExtractor Popup.
Local Open Scope popup_scope.

(** The click handler of [extractBtn]. *)
Definition extractClick : P unit :=
  tryCatch
    (tabs <- tabsQuery ;;
     id <- firstTabId tabs ;;
     result <- executeScript id
                 (let extractor := new in extractTranscript extractor) ;;
     entries <- firstResult result ;;
     entries <- property entries (js "length") ;;
     if Nat.ltb 0 (length entries) then
       showStatus (js "Extracted " ++ JSString.ofNat (length entries)
                   ++ js " transcript entries") None ;;
       consoleLog (LoggedEntries (js "Transcript entries:") entries)
     else
       showStatus (js "No transcript found on this page") (Some true))
    (fun error =>
       showStatus (js "Error extracting transcript: " ++ errorMessage error)
                  (Some true)).

(** The click handler of [copyBtn]. *)
Definition copyClick : P unit :=
  tryCatch
    (tabs <- tabsQuery ;;
     id <- firstTabId tabs ;;
     result <- executeScript id
                 (let extractor := new in
                  copyToClipboard extractor (Some false) (Some (js " "))) ;;
     success <- firstResult result ;;
     if withDefault false success then
       showStatus (js "Content copied to clipboard!") None
     else
       showStatus (js "Failed to copy content") (Some true))
    (fun error =>
       showStatus (js "Error copying content: " ++ errorMessage error)
                  (Some true)).

(** The click handler of [downloadBtn]. *)
Definition downloadClick : P unit :=
  tryCatch
    (tabs <- tabsQuery ;;
     id <- firstTabId tabs ;;
     executeScript id
       (let extractor := new in
        downloadTranscript extractor (Some (js "transcript.txt")) (Some false)
                           (Some (js " "))) ;;
     showStatus (js "Transcript downloaded!") None)
    (fun error =>
       showStatus (js "Error downloading transcript: " ++ errorMessage error)
                  (Some true)).

(** The click handler of [summaryBtn]. *)
Definition summaryClick : P unit :=
  tryCatch
    (tabs <- tabsQuery ;;
     id <- firstTabId tabs ;;
     result <- executeScript id
                 (let extractor := new in getSummary extractor) ;;
     summary <- firstResult result ;;
     summary <- property summary (js "totalEntries") ;;
     showStatus (js "Summary: " ++ JSString.ofNat (totalEntries summary)
                 ++ js " entries, " ++ JSString.ofNat (totalWords summary)
                 ++ js " words") None ;;
     consoleLog (LoggedSummary (js "Transcript summary:") summary))
    (fun error =>
       showStatus (js "Error getting summary: " ++ errorMessage error)
                  (Some true)).

End PopupHandlers.

Module PopupSamples.
Import DOM Effect TranscriptExtractor Popup.

(** A browser with one active tab showing the document [d], the
    extractor loaded in it, and the clipboard granted or refused. *)
Definition env (d : Document) (granted : bool) : Popup.Env :=
  {| queriedTabs := Normal [ {| tabId := 7 |} ];
     injection := fun _ => None;
     contentScriptLoaded := true;
     pageThrown := fun _ => None;
     page := fun _ => Sample.env d granted;
     typeErrorMessage := Sample.v8Message |}.

(** A browser that finds no active tab. *)
Definition noTab : Popup.Env :=
  {| queriedTabs := Normal [];
     injection := fun _ => None;
     contentScriptLoaded := true;
     pageThrown := fun _ => None;
     page := fun _ => Sample.env Sample.twoEntries true;
     typeErrorMessage := Sample.v8Message |}.

(** The popup just opened: the status hidden, nothing pending. *)
Definition start : Popup.World :=
  {| statusDiv := {| textContent := []; className := js "status";
                     display := js "none" |};
     timers := [];
     console := [];
     pageWorld := Sample.start |}.

(** The popup right after a first status was shown. *)
Definition afterFirstStatus : Popup.World :=
  snd (showStatus (js "Content copied to clipboard!") None noTab start).

(** The handlers with the prefix of their error status. *)
Definition handlers : list (P unit * jsstring) :=
  [ (PopupHandlers.extractClick, js "Error extracting transcript: ");
    (PopupHandlers.copyClick, js "Error copying content: ");
    (PopupHandlers.downloadClick, js "Error downloading transcript: ");
    (PopupHandlers.summaryClick, js "Error getting summary: ") ].

End PopupSamples.

(* ================================================================= *)
(** ** Lemmas on strings and lists *)

Section ListFacts.
Variable A : Type.

Lemma find_none_existsb (f : A -> bool) (l : list A) :
  find f l = None <-> existsb f l = false.
Proof.
  induction l as [|x l IH]; simpl; [tauto|].
  destruct (f x); simpl; [split; discriminate | exact IH].
Qed.

Lemma find_some_existsb (f : A -> bool) (l : list A) (x : A) :
  find f l = Some x -> existsb f l = true.
Proof.
  intros H. destruct (existsb f l) eqn:E; [reflexivity|].
  apply find_none_existsb in E. congruence.
Qed.

Lemma filter_partition_length (f g : A -> bool) (l : list A) :
  (forall x, g x = negb (f x)) ->
  length l = length (filter f l) + length (filter g l).
Proof.
  intros Hg. induction l as [|x l IH]; simpl; [reflexivity|].
  rewrite Hg. destruct (f x); simpl; lia.
Qed.

End ListFacts.

Section JoinFacts.
Import JSString Spec.

Lemma joinFrom_joined (sep : jsstring) (arr : list jsstring) :
  forall (R : jsstring) (k : nat),
    joinFrom sep R (S k) arr =
    match arr with
    | [] => R
    | _ :: _ => R ++ sep ++ joined sep arr
    end.
Proof.
  induction arr as [|x rest IH]; intros R k; simpl; [reflexivity|].
  rewrite IH. destruct rest as [|y rest'].
  - now rewrite <- app_assoc.
  - now rewrite <- !app_assoc.
Qed.

Lemma join_joined (arr : list jsstring) (sep : jsstring) :
  join arr sep = joined sep arr.
Proof.
  unfold join. destruct arr as [|x rest]; simpl; [reflexivity|].
  rewrite joinFrom_joined. destruct rest; [reflexivity|reflexivity].
Qed.

Lemma joined_length (sep : jsstring) (l : list jsstring) :
  length (joined sep l) = totalLength l + length sep * (length l - 1).
Proof.
  induction l as [|x rest IH]; simpl; [lia|].
  destruct rest as [|y rest'].
  - simpl. lia.
  - rewrite !length_app, IH. simpl length. simpl totalLength.
    fold (totalLength rest'). nia.
Qed.

End JoinFacts.

Section TrimFacts.
Import JSString Spec.

(** What [trim] removes is white space, and what it leaves neither
    starts nor ends with white space. *)

Lemma trimStart_spec (s : jsstring) :
  exists pre, s = pre ++ trimStart s
              /\ forallb isWhiteSpace pre = true
              /\ startsClean (trimStart s).
Proof.
  induction s as [|c r (pre & Hs & Hpre & Hclean)]; simpl.
  - now exists [].
  - destruct (isWhiteSpace c) eqn:W.
    + exists (c :: pre). simpl. rewrite W, Hpre. repeat split; auto.
      now f_equal.
    + exists []. simpl. auto.
Qed.

Lemma trimEnd_spec (s : jsstring) :
  exists post, s = trimEnd s ++ post
               /\ forallb isWhiteSpace post = true
               /\ endsClean (trimEnd s).
Proof.
  unfold trimEnd, endsClean.
  destruct (trimStart_spec (rev s)) as (pre & Hs & Hpre & Hclean).
  exists (rev pre). repeat split.
  - rewrite <- rev_app_distr, <- Hs. now rewrite rev_involutive.
  - rewrite forallb_forall in *. intros x Hx. apply Hpre.
    now apply in_rev.
  - now rewrite rev_involutive.
Qed.

Lemma trim_spec (s : jsstring) :
  exists pre post,
    s = pre ++ trim s ++ post
    /\ forallb isWhiteSpace pre = true
    /\ forallb isWhiteSpace post = true
    /\ startsClean (trim s)
    /\ endsClean (trim s).
Proof.
  unfold trim.
  destruct (trimStart_spec s) as (pre & Hs & Hpre & Hclean).
  destruct (trimEnd_spec (trimStart s)) as (post & Ht & Hpost & Hend).
  exists pre, post. repeat split; auto.
  - now rewrite <- Ht.
  - destruct (trimEnd (trimStart s)) as [|c r] eqn:E; simpl; [trivial|].
    rewrite Ht in Hclean. exact Hclean.
Qed.

End TrimFacts.

(* ================================================================= *)
(** ** Extraction *)

Module ExtractFacts.
Import DOM Effect TranscriptExtractor Spec.

(** What one call of [extractTranscript] does, by presence of the
    container. *)
Lemma extractTranscript_run (this : t) (env : Env) (w : World) :
  extractTranscript this env w =
  match documentQuerySelector (document env) (transcriptBodySelector this) with
  | None =>
      (Normal [],
       addEvents w [ConsoleWarn (js "Transcript body not found on this page")])
  | Some transcriptBody =>
      (Normal (fold_left (visitButton this) (candidates transcriptBody) []), w)
  end.
Proof.
  unfold extractTranscript, bind, getDocument, consoleWarn, emit, ret.
  destruct (documentQuerySelector _ _); reflexivity.
Qed.

(** A button adds its own contribution to the entries pushed so far. *)
Lemma visitButton_acc (this : t) (acc : list Entry) (b : Node) :
  visitButton this acc b = acc ++ visitButton this [] b.
Proof.
  unfold visitButton.
  destruct (querySelector b (pWithClass (timestampClass this))),
           (querySelector b (pWithClass (contentClass this)));
    simpl; now rewrite ?app_nil_r.
Qed.

(** The loop over the buttons appends, to the entries pushed so far,
    what each button contributes on its own. *)
Lemma forEach_visitButton (this : t) (buttons : list Node) :
  forall acc,
    fold_left (visitButton this) buttons acc =
    acc ++ flat_map (visitButton this []) buttons.
Proof.
  induction buttons as [|b rest IH]; intros acc; simpl.
  - now rewrite app_nil_r.
  - now rewrite IH, visitButton_acc, <- app_assoc.
Qed.

Lemma visitButton_wellFormed (this : t) (b : Node) :
  wellFormed this b = true ->
  exists e, visitButton this [] b = [e] /\ entryOfCandidate this b e.
Proof.
  unfold wellFormed, hasMarked, visitButton, querySelector.
  intros H. apply andb_true_iff in H as [Ht Hc].
  destruct (find _ (descendants b)) as [te|] eqn:Et;
    [|apply find_none_existsb in Et; congruence].
  destruct (find (matches (pWithClass (contentClass this))) _) as [ce|] eqn:Ec;
    [|apply find_none_existsb in Ec; congruence].
  eexists. split; [reflexivity|].
  exists te, ce. unfold querySelector. simpl. auto.
Qed.

Lemma visitButton_malformed (this : t) (b : Node) :
  wellFormed this b = false -> visitButton this [] b = [].
Proof.
  unfold wellFormed, hasMarked, visitButton, querySelector.
  intros H. apply andb_false_iff in H as [H|H];
    apply find_none_existsb in H; rewrite H; [reflexivity|].
  now destruct (find (matches (pWithClass (timestampClass this))) _).
Qed.

Lemma entries_of_candidates (this : t) (buttons : list Node) :
  Forall2 (entryOfCandidate this)
          (filter (wellFormed this) buttons)
          (flat_map (visitButton this []) buttons).
Proof.
  induction buttons as [|b rest IH]; simpl; [constructor|].
  destruct (wellFormed this b) eqn:W.
  - destruct (visitButton_wellFormed this b W) as (e & -> & He).
    simpl. now constructor.
  - now rewrite (visitButton_malformed this b W).
Qed.

Lemma malformed_not_wellFormed (this : t) (b : Node) :
  malformed this b = negb (wellFormed this b).
Proof. unfold malformed, wellFormed. now rewrite negb_andb. Qed.

Lemma addEvents_nil (w : World) : addEvents w [] = w.
Proof. unfold addEvents. rewrite app_nil_r. now destruct w. Qed.

Lemma addEvents_addEvents (w : World) (a b : list Event) :
  addEvents (addEvents w a) b = addEvents w (a ++ b).
Proof. unfold addEvents. simpl. now rewrite app_assoc. Qed.

(** [extractTranscript] never throws; its value depends on the document
    alone, and the world only gains the diagnostic of the missing
    container. *)
Lemma extractTranscript_eq (this : t) (env : Env) (w : World) :
  extractTranscript this env w =
  (Normal (extracted this (document env)),
   addEvents w (missingDiagnostic this (document env))).
Proof.
  rewrite extractTranscript_run. unfold extracted, missingDiagnostic.
  destruct (documentQuerySelector _ _); [|reflexivity].
  now rewrite addEvents_nil.
Qed.

Lemma extractTranscript_result (this : t) (env : Env) (w : World) es :
  result (extractTranscript this) env w = Normal es ->
  es = extracted this (document env).
Proof.
  unfold result. rewrite extractTranscript_eq. simpl. congruence.
Qed.

Lemma missingDiagnostic_cases (this : t) (d : Document) :
  missingDiagnostic this d = []
  \/ missingDiagnostic this d
       = [ConsoleWarn (js "Transcript body not found on this page")]
     /\ extracted this d = [].
Proof.
  unfold missingDiagnostic, extracted.
  destruct (documentQuerySelector _ _); [now left | now right].
Qed.

Lemma extractContentOnly_eq (this : t) (env : Env) (w : World) :
  extractContentOnly this env w =
  (Normal (map content (extracted this (document env))),
   addEvents w (missingDiagnostic this (document env))).
Proof.
  unfold extractContentOnly, bind. now rewrite extractTranscript_eq.
Qed.

Lemma extractContentAsText_eq (this : t) separator (env : Env) (w : World) :
  extractContentAsText this separator env w =
  (Normal (JSString.join (map content (extracted this (document env)))
                         (withDefault (js " ") separator)),
   addEvents w (missingDiagnostic this (document env))).
Proof.
  unfold extractContentAsText, bind. now rewrite extractContentOnly_eq.
Qed.

Lemma clipboardRequests_app (a b : list Event) :
  clipboardRequests (a ++ b) = clipboardRequests a ++ clipboardRequests b.
Proof. unfold clipboardRequests. now rewrite flat_map_app. Qed.

Lemma clipboardRequests_missingDiagnostic (this : t) (d : Document) :
  clipboardRequests (missingDiagnostic this d) = [].
Proof. unfold missingDiagnostic. now destruct (documentQuerySelector _ _). Qed.

(** The four ways [copyToClipboard] runs: nothing to copy, no clipboard
    interface, the write granted, the write refused. *)
Lemma copyToClipboard_eq (this : t) includeTimestamps separator
      (env : Env) (w : World) :
  let entries := extracted this (document env) in
  let diag := missingDiagnostic this (document env) in
  let text := renderEntries entries (withDefault false includeTimestamps)
                            (withDefault [10; 10]%N separator) in
  copyToClipboard this includeTimestamps separator env w =
  match entries with
  | [] =>
      (Normal false,
       addEvents w (diag ++ [ConsoleWarn (js "No transcript content found")]))
  | _ :: _ =>
      match navigatorClipboard env with
      | None =>
          (Normal false,
           addEvents w
             (diag ++
              [ConsoleError (js "Failed to copy to clipboard:")
                 (engineTypeError env JSUndefined (js "writeText"))]))
      | Some answer =>
          match answer text with
          | None =>
              (Normal true,
               {| events :=
                    events w ++ diag ++
                    [ClipboardWriteText text;
                     ConsoleLog (js "Copied "
                                 ++ JSString.ofNat (length entries)
                                 ++ js " transcript entries to clipboard")];
                  clipboard := Some text |})
          | Some error =>
              (Normal false,
               addEvents w
                 (diag ++
                  [ClipboardWriteText text;
                   ConsoleError (js "Failed to copy to clipboard:") error]))
          end
      end
  end.
Proof.
  intros entries diag text.
  unfold copyToClipboard, tryCatch, bind.
  rewrite extractTranscript_eq. fold entries diag.
  destruct entries as [|e rest] eqn:E.
  - simpl. unfold consoleWarn, emit, ret, addEvents. simpl.
    now rewrite <- app_assoc.
  - cbn [length Nat.eqb]. fold text.
    unfold clipboardWriteText, consoleLog, consoleError, emit, ret, addEvents.
    cbn [events clipboard].
    destruct (navigatorClipboard env) as [answer|];
      [destruct (answer text)|]; cbn [events clipboard];
      now rewrite <- !app_assoc.
Qed.

(** The texts [copyToClipboard] requests to be written, and what it
    returns, by the platform. *)
Lemma copyToClipboard_requests (this : t) includeTimestamps separator
      (env : Env) (w : World) (e : Entry) (rest : list Entry) :
  extracted this (document env) = e :: rest ->
  let text := renderEntries (e :: rest) (withDefault false includeTimestamps)
                            (withDefault [10; 10]%N separator) in
  let copy := copyToClipboard this includeTimestamps separator in
  clipboardRequests (events (after copy env w))
  = clipboardRequests (events w)
    ++ match navigatorClipboard env with Some _ => [text] | None => [] end
  /\ match clipboardAnswer env text with
     | None => result copy env w = Normal true
               /\ clipboard (after copy env w) = Some text
     | Some error =>
         result copy env w = Normal false
         /\ clipboard (after copy env w) = clipboard w
         /\ In (ConsoleError (js "Failed to copy to clipboard:") error)
               (events (after copy env w))
     end.
Proof.
  intros E text copy. unfold result, after, copy, clipboardAnswer.
  rewrite copyToClipboard_eq, E. fold text.
  destruct (navigatorClipboard env) as [answer|];
    [destruct (answer text) as [error|]|];
    cbn [fst snd events clipboard addEvents];
    rewrite ?clipboardRequests_app, ?clipboardRequests_missingDiagnostic;
    simpl; rewrite ?app_nil_r; repeat split; auto;
    rewrite !in_app_iff; right; right; simpl; auto.
Qed.

End ExtractFacts.

(* ================================================================= *)
(** ** The tree functions against document order *)

Module OrderFacts.
Import DOM DocOrder Props.

Lemma before_cons (i : nat) (p q : Path) :
  before (i :: p) (i :: q) = before p q.
Proof. simpl. now rewrite Nat.ltb_irrefl, Nat.eqb_refl. Qed.

Lemma before_heads (i j : nat) (p q : Path) :
  i < j -> before (i :: p) (j :: q) = true.
Proof. intros H. simpl. apply Nat.ltb_lt in H. now rewrite H. Qed.

Lemma before_asym (p : Path) :
  forall q, before p q = true -> before q p = true -> False.
Proof.
  induction p as [|i p IH]; intros [|j q]; simpl; try discriminate.
  intros H1 H2.
  apply orb_true_iff in H1 as [H1 | H1];
    apply orb_true_iff in H2 as [H2 | H2];
    rewrite ?andb_true_iff, ?Nat.ltb_lt, ?Nat.eqb_eq in *;
    try lia.
  destruct H1 as [_ H1], H2 as [_ H2]. exact (IH q H1 H2).
Qed.

Lemma sorted_app {A} (R : A -> A -> Prop) (a b : list A) :
  StronglySorted R a -> StronglySorted R b ->
  (forall x y, In x a -> In y b -> R x y) ->
  StronglySorted R (a ++ b).
Proof.
  induction a as [|x a IH]; intros Ha Hb Hab; simpl; [exact Hb|].
  inversion Ha as [|? ? Ha' Hx]; subst. constructor.
  - apply IH; auto. intros; apply Hab; simpl; auto.
  - apply Forall_app. split; [exact Hx|].
    apply Forall_forall. intros y Hy. apply Hab; simpl; auto.
Qed.

Lemma sorted_map_cons (i : nat) (ps : list Path) :
  StronglySorted precedes ps ->
  StronglySorted precedes (map (cons i) ps).
Proof.
  induction 1 as [|p ps Hs IH Hp]; simpl; constructor; [exact IH|].
  rewrite Forall_map. rewrite Forall_forall in *.
  intros q Hq. unfold precedes. rewrite before_cons. now apply Hp.
Qed.

Lemma sorted_filter {A} (R : Path -> Path -> Prop) (g : Path * A -> bool)
      (L : list (Path * A)) :
  StronglySorted R (map fst L) -> StronglySorted R (map fst (filter g L)).
Proof.
  induction L as [|x L IH]; simpl; intros H; [constructor|].
  inversion H as [|? ? HL Hx]; subst.
  destruct (g x); simpl; [|now apply IH].
  constructor; [now apply IH|].
  rewrite Forall_forall in *. intros q Hq. apply Hx.
  apply in_map_iff in Hq as (y & <- & Hy). apply filter_In in Hy as [Hy _].
  now apply in_map.
Qed.

Lemma map_fst_shift (i : nat) (L : list (Path * Node)) :
  map fst (map (shift i) L) = map (cons i) (map fst L).
Proof. rewrite !map_map. reflexivity. Qed.

Lemma map_snd_shift (i : nat) (L : list (Path * Node)) :
  map snd (map (shift i) L) = map snd L.
Proof. rewrite map_map. reflexivity. Qed.

(** The nodes of [located] are the descendants, in the same order. *)
Lemma located_nodes (n : Node) : map snd (located n) = descendants n.
Proof.
  induction n as [name attrs cs IH | d | d] using Node_tree_ind;
    try reflexivity.
  simpl. generalize 0 as i.
  induction IH as [|c r Hc _ IHr]; intros i; simpl; [reflexivity|].
  rewrite map_app, IHr. f_equal. unfold chunk.
  destruct (isElement c); [|reflexivity].
  simpl. now rewrite map_snd_shift, Hc.
Qed.

Lemma nodeAt_child (name : jsstring) (attrs : list (jsstring * jsstring))
      (pre r : list Node) (c : Node) (p : Path) :
  nodeAt (Element name attrs (pre ++ c :: r)) (length pre :: p) = nodeAt c p.
Proof.
  simpl. rewrite nth_error_app2 by lia. now rewrite Nat.sub_diag.
Qed.

(** Every pair of [located] is an element descendant at its path. *)
Lemma located_sound (n : Node) :
  Forall (fun x => ElementAt n (fst x) (snd x)) (located n).
Proof.
  induction n as [name attrs cs IH | d | d] using Node_tree_ind;
    try constructor.
  simpl. change cs with ([] ++ cs) at 1. change 0 with (length (@nil Node)).
  generalize (@nil Node) as pre.
  induction IH as [|c r Hc _ IHr]; intros pre; simpl; [constructor|].
  apply Forall_app. split.
  - unfold chunk. destruct (isElement c) eqn:Ec; [|constructor].
    constructor.
    + simpl. repeat split; [discriminate | | exact Ec].
      exact (nodeAt_child name attrs pre r c []).
    + rewrite Forall_map. rewrite Forall_forall in *.
      intros x Hx. destruct (Hc x Hx) as (Hp & Hat & Hel).
      simpl. repeat split; [discriminate | | exact Hel].
      rewrite <- Hat. exact (nodeAt_child name attrs pre r c (fst x)).
  - specialize (IHr (pre ++ [c])).
    rewrite <- app_assoc, length_app, Nat.add_comm in IHr. exact IHr.
Qed.

Lemma located_sorted (n : Node) :
  StronglySorted precedes (map fst (located n)).
Proof.
  induction n as [name attrs cs IH | d | d] using Node_tree_ind;
    try constructor.
  simpl.
  enough (H : forall i,
             StronglySorted precedes (map fst (locatedChildren located i cs))
             /\ Forall (headAtLeast i)
                       (map fst (locatedChildren located i cs)))
    by apply H.
  induction IH as [|c r Hc _ IHr]; intros i; simpl;
    [split; constructor|].
  destruct (IHr (S i)) as [Hs Hh].
  assert (Hchunk : StronglySorted precedes (map fst (chunk located i c))
                   /\ Forall (fun p => exists q, p = i :: q)
                             (map fst (chunk located i c))).
  { unfold chunk. destruct (isElement c); [|split; constructor].
    simpl. rewrite map_fst_shift. split.
    - constructor; [now apply sorted_map_cons|].
      rewrite Forall_map. rewrite Forall_map.
      assert (Hsound := located_sound c).
      rewrite Forall_forall in *. intros x Hx.
      destruct (Hsound x Hx) as (Hp & _). unfold precedes. simpl.
      rewrite Nat.ltb_irrefl, Nat.eqb_refl. simpl.
      now destruct (fst x).
    - constructor; [now exists []|].
      rewrite Forall_map. apply Forall_forall. intros q _. now exists q. }
  destruct Hchunk as [Hcs Hch].
  rewrite map_app. split.
  - apply sorted_app; [exact Hcs | exact Hs |].
    rewrite Forall_forall in *. intros x y Hx Hy.
    destruct (Hch x Hx) as (q & ->). specialize (Hh y Hy).
    destruct y as [|k y']; [contradiction|]. simpl in Hh.
    apply before_heads. lia.
  - apply Forall_app. split.
    + rewrite Forall_forall in *. intros x Hx.
      destruct (Hch x Hx) as (q & ->). simpl. lia.
    + rewrite Forall_forall in *. intros y Hy. specialize (Hh y Hy).
      destruct y; simpl in *; [contradiction | lia].
Qed.

Lemma chunk_in_children (l : list Node) :
  forall (k j : nat) (c : Node) (x : Path * Node),
    nth_error l k = Some c ->
    In x (chunk located (j + k) c) ->
    In x (locatedChildren located j l).
Proof.
  induction l as [|c0 r IH]; intros k j c x Hk Hx;
    [destruct k; discriminate|].
  simpl. apply in_or_app. destruct k as [|k'].
  - injection Hk as ->. rewrite Nat.add_0_r in Hx. now left.
  - right. apply (IH k' (S j) c x Hk).
    now rewrite Nat.add_succ_comm.
Qed.

(** Every element descendant is in [located], at its path. *)
Lemma located_complete (p : Path) :
  forall n el, ElementAt n p el -> In (p, el) (located n).
Proof.
  induction p as [|i rest IH]; intros n el (Hp & Hat & Hel); [congruence|].
  destruct n as [name attrs cs | d | d]; simpl in Hat; try discriminate.
  destruct (nth_error cs i) as [c|] eqn:Hc; [|discriminate].
  simpl. apply (@chunk_in_children cs i 0 c); [exact Hc|].
  simpl. unfold chunk. destruct rest as [|i' rest'].
  - simpl in Hat. injection Hat as ->. rewrite Hel. now left.
  - assert (Hce : isElement c = true)
      by (destruct c; simpl in *; [reflexivity | discriminate | discriminate]).
    rewrite Hce. right.
    apply in_map_iff. exists (i' :: rest', el). split; [reflexivity|].
    apply IH. repeat split; [discriminate | exact Hat | exact Hel].
Qed.

Lemma filter_map_snd {A B} (P : B -> bool) (L : list (A * B)) :
  filter P (map snd L) = map snd (filter (fun x => P (snd x)) L).
Proof.
  induction L as [|x L IH]; simpl; [reflexivity|].
  destruct (P (snd x)); simpl; now rewrite IH.
Qed.

Lemma Forall2_fst_snd {A B} (R : A -> B -> Prop) (L : list (A * B)) :
  Forall (fun x => R (fst x) (snd x)) L -> Forall2 R (map fst L) (map snd L).
Proof. induction 1; simpl; constructor; auto. Qed.

(** [filter P (descendants root)] lists the element descendants that
    satisfy [P] in document order. *)
Lemma descendants_listing (root : Node) (P : Node -> bool) :
  Listing root P (filter P (descendants root)).
Proof.
  exists (map fst (filter (fun x => P (snd x)) (located root))).
  rewrite <- located_nodes, filter_map_snd.
  split; [|split; [|split]].
  - apply Forall2_fst_snd. apply Forall_forall. intros x Hx.
    apply filter_In in Hx as [Hx _].
    assert (Hs := located_sound root). rewrite Forall_forall in Hs. auto.
  - apply sorted_filter, located_sorted.
  - rewrite Forall_map. apply Forall_forall. intros x Hx.
    now apply filter_In in Hx as [_ Hx].
  - intros p el Hat HP. apply in_map_iff. exists (p, el). split; [reflexivity|].
    apply filter_In. split; [now apply located_complete | exact HP].
Qed.

Lemma find_first_pair (P : Node -> bool) (L : list (Path * Node)) (el : Node) :
  StronglySorted precedes (map fst L) ->
  find P (map snd L) = Some el ->
  exists p, In (p, el) L /\ P el = true
            /\ forall q el', In (q, el') L -> P el' = true ->
                             q = p \/ precedes p q.
Proof.
  induction L as [|[p0 e0] L IH]; simpl; intros Hs Hf; [discriminate|].
  inversion Hs as [|? ? HL H0]; subst.
  destruct (P e0) eqn:E0.
  - injection Hf as <-. exists p0. split; [now left|]. split; [exact E0|].
    intros q el' [Heq | Hin] _; [injection Heq as <- _; now left|].
    right. rewrite Forall_forall in H0. apply H0.
    apply in_map_iff. now exists (q, el').
  - destruct (IH HL Hf) as (p & Hin & HP & Hfirst).
    exists p. split; [now right|]. split; [exact HP|].
    intros q el' [Heq | Hin'] HP'; [|now apply Hfirst with el'].
    injection Heq as _ <-. congruence.
Qed.

(** [find P (descendants root)] is the first element descendant that
    satisfies [P], in document order. *)
Lemma find_first (root : Node) (P : Node -> bool) (el : Node) :
  find P (descendants root) = Some el -> First root P el.
Proof.
  rewrite <- located_nodes. intros Hf.
  destruct (find_first_pair P (located root) (located_sorted root) Hf)
    as (p & Hin & HP & Hfirst).
  assert (Hs := located_sound root). rewrite Forall_forall in Hs.
  exists p. split; [exact (Hs _ Hin)|]. split; [exact HP|].
  intros q el' Hat HP'. apply Hfirst with el'; [|exact HP'].
  now apply located_complete.
Qed.

Lemma existsb_some (root : Node) (P : Node -> bool) :
  existsb P (descendants root) = true <-> Some_ root P.
Proof.
  rewrite <- located_nodes. split.
  - intros H. apply existsb_exists in H as (el & Hin & HP).
    apply in_map_iff in Hin as ([p el'] & <- & Hin).
    assert (Hs := located_sound root). rewrite Forall_forall in Hs.
    exists p, el'. split; [exact (Hs _ Hin) | exact HP].
  - intros (p & el & Hat & HP). apply existsb_exists. exists el.
    split; [|exact HP]. apply in_map_iff. exists (p, el).
    split; [reflexivity | now apply located_complete].
Qed.

(** The first such element is the one [find] gives. *)
Lemma first_find (root : Node) (P : Node -> bool) (el : Node) :
  First root P el -> find P (descendants root) = Some el.
Proof.
  intros (p & Hat & HP & Hfirst).
  destruct (find P (descendants root)) as [el0|] eqn:Hf.
  - destruct (find_first root P Hf) as (p0 & Hat0 & HP0 & Hfirst0).
    destruct (Hfirst p0 el0 Hat0 HP0) as [-> | H1].
    + destruct Hat as (_ & Hn & _), Hat0 as (_ & Hn0 & _). congruence.
    + destruct (Hfirst0 p el Hat HP) as [-> | H2].
      * destruct Hat as (_ & Hn & _), Hat0 as (_ & Hn0 & _). congruence.
      * destruct (before_asym p p0 H1 H2).
  - apply find_none_existsb in Hf.
    assert (Hs : Some_ root P) by (now exists p, el).
    apply existsb_some in Hs. congruence.
Qed.

(** [textContent] of an element is its text. *)
Lemma descendantText_TextOf (n : Node) : TextOf n (descendantText n).
Proof.
  induction n as [name attrs cs IH | d | d] using Node_tree_ind;
    try constructor.
  simpl. rewrite flat_map_concat_map. constructor.
  induction IH; simpl; constructor; auto.
Qed.

Lemma textContent_TextOf (el : Node) :
  isElement el = true -> TextOf el (textContent el).
Proof.
  destruct el; try discriminate. intros _. apply descendantText_TextOf.
Qed.

(** [trim] gives the string without the white space at its ends. *)
Lemma trim_TrimOf (s : jsstring) : TrimOf s (JSString.trim s).
Proof.
  destruct (trim_spec s) as (pre & post & Hs & Hpre & Hpost & Hstart & Hend).
  exists pre, post. repeat split; assumption.
Qed.

End OrderFacts.

Module EntryFacts.
Import DOM Effect TranscriptExtractor Spec DocOrder.

(** The container of the document, found by [document.querySelector]. *)
Lemma first_container (this : t) (d : Document) (container : Node) :
  First (documentRoot d) (matches (transcriptBodySelector this)) container ->
  documentQuerySelector d (transcriptBodySelector this) = Some container.
Proof. intros HF. exact (OrderFacts.first_find HF). Qed.

Lemma container_first (this : t) (d : Document) (container : Node) :
  documentQuerySelector d (transcriptBodySelector this) = Some container ->
  First (documentRoot d) (matches (transcriptBodySelector this)) container.
Proof. intros H. exact (OrderFacts.find_first (documentRoot d) _ H). Qed.

Lemma wellFormed_WellFormed (this : t) (candidate : Node) :
  wellFormed this candidate = true <-> WellFormed this candidate.
Proof.
  unfold wellFormed, hasMarked, WellFormed.
  rewrite andb_true_iff, !OrderFacts.existsb_some. reflexivity.
Qed.

Lemma entryOfCandidate_EntryOf (this : t) (candidate : Node) (e : Entry) :
  entryOfCandidate this candidate e -> EntryOf this candidate e.
Proof.
  intros (te & ce & Ht & Hc & Hts & Hcs).
  apply OrderFacts.find_first in Ht. apply OrderFacts.find_first in Hc.
  exists te, ce, (textContent te), (textContent ce).
  split; [exact Ht|]. split; [exact Hc|].
  destruct Ht as (pt & (_ & _ & Het) & _), Hc as (pc & (_ & _ & Hec) & _).
  split; [now apply OrderFacts.textContent_TextOf|].
  split; [now apply OrderFacts.textContent_TextOf|].
  rewrite Hts, Hcs. split; apply OrderFacts.trim_TrimOf.
Qed.

End EntryFacts.

(** C1: when the document has a container (the first element, in document
    order, that matches the container selector), [extractTranscript]
    returns, without any diagnostic, one entry per well-formed candidate
    and none for a malformed one.  The candidates are the button
    descendants of the container in document order; a candidate is
    well-formed when it has a timestamp-marked and a content-marked
    descendant.  With N well-formed and M malformed candidates (N + M in
    all) the result has exactly N entries, in the document order of their
    candidates, and each entry holds the text of the first
    timestamp-marked and of the first content-marked descendant of its
    candidate, without the white space at its ends. *)
Theorem extractTranscript_well_formed_in_order
  (this : TranscriptExtractor.t) (env : Effect.Env) (w : Effect.World)
  (container : DOM.Node) :
  DocOrder.First (DocOrder.documentRoot (Effect.document env))
    (DOM.matches (TranscriptExtractor.transcriptBodySelector this))
    container ->
  let cands := Spec.candidates container in
  let N := length (filter (Spec.wellFormed this) cands) in
  let M := length (filter (Spec.malformed this) cands) in
  exists entries,
    TranscriptExtractor.extractTranscript this env w = (Effect.Normal entries, w)
    /\ DocOrder.Listing container (DOM.matches [DOM.TypeSel (js "button")])
                        cands
    /\ (forall candidate,
          (Spec.wellFormed this candidate = true
           <-> DocOrder.WellFormed this candidate)
          /\ Spec.malformed this candidate
             = negb (Spec.wellFormed this candidate))
    /\ length cands = N + M
    /\ length entries = N
    /\ Forall2 (DocOrder.EntryOf this)
               (filter (Spec.wellFormed this) cands) entries.
Proof.
  intros HF cands N M.
  assert (Hc := @EntryFacts.first_container this (Effect.document env)
                  container HF).
  exists (flat_map (TranscriptExtractor.visitButton this []) cands).
  assert (HE := ExtractFacts.entries_of_candidates this cands).
  split; [|split; [|split; [|split; [|split]]]].
  - rewrite ExtractFacts.extractTranscript_run, Hc.
    now rewrite ExtractFacts.forEach_visitButton.
  - apply OrderFacts.descendants_listing.
  - intros candidate. split.
    + apply EntryFacts.wellFormed_WellFormed.
    + apply ExtractFacts.malformed_not_wellFormed.
  - apply filter_partition_length, ExtractFacts.malformed_not_wellFormed.
  - symmetry. exact (Forall2_length HE).
  - revert HE. apply Forall2_impl.
    intros c e. apply EntryFacts.entryOfCandidate_EntryOf.
Qed.

Lemma extractTranscript_well_formed_in_order_witness :
  let entries :=
    [ {| TranscriptExtractor.timestamp := js "00:00:01";
         TranscriptExtractor.content := js "Hello" |};
      {| TranscriptExtractor.timestamp := js "00:00:05";
         TranscriptExtractor.content := js "world" |} ] in
  DocOrder.First (DocOrder.documentRoot Sample.twoEntries)
    (DOM.matches
       (TranscriptExtractor.transcriptBodySelector TranscriptExtractor.new))
    Sample.twoEntriesBody
  /\ TranscriptExtractor.extractTranscript TranscriptExtractor.new
       (Sample.env Sample.twoEntries true) Sample.start
     = (Effect.Normal entries, Sample.start)
  /\ DocOrder.Listing Sample.twoEntriesBody
       (DOM.matches [DOM.TypeSel (js "button")])
       (Spec.candidates Sample.twoEntriesBody)
  /\ length (Spec.candidates Sample.twoEntriesBody) = 2 + 1
  /\ Forall2 (DocOrder.EntryOf TranscriptExtractor.new)
             (filter (Spec.wellFormed TranscriptExtractor.new)
                     (Spec.candidates Sample.twoEntriesBody)) entries.
Proof.
  intros entries.
  assert (HF : DocOrder.First (DocOrder.documentRoot Sample.twoEntries)
                 (DOM.matches
                    (TranscriptExtractor.transcriptBodySelector
                       TranscriptExtractor.new))
                 Sample.twoEntriesBody)
    by (apply OrderFacts.find_first; reflexivity).
  split; [exact HF|].
  destruct (@extractTranscript_well_formed_in_order TranscriptExtractor.new
              (Sample.env Sample.twoEntries true) Sample.start
              Sample.twoEntriesBody HF)
    as (es & Hrun & Hlist & _ & Hlen & _ & Hentries).
  assert (Hes : es = entries).
  { assert (H := Hrun). vm_compute in H. injection H as <-. reflexivity. }
  subst es.
  split; [exact Hrun|]. split; [exact Hlist|]. split; [exact Hlen|].
  exact Hentries.
Defined.

(** C8: when the container selector matches no element of the document,
    [extractTranscript] completes normally (it does not throw) with the
    empty sequence, and emits the diagnostic of the missing container and
    nothing else. *)
Theorem extractTranscript_missing_container
  (this : TranscriptExtractor.t) (env : Effect.Env) (w : Effect.World) :
  (forall el, In el (DOM.documentElements (Effect.document env)) ->
              DOM.matches (TranscriptExtractor.transcriptBodySelector this) el
              = false) ->
  TranscriptExtractor.extractTranscript this env w =
  (Effect.Normal [],
   Effect.addEvents w
     [Effect.ConsoleWarn (js "Transcript body not found on this page")]).
Proof.
  intros Hno. rewrite ExtractFacts.extractTranscript_run.
  unfold DOM.documentQuerySelector.
  destruct (find _ _) as [el|] eqn:F; [|reflexivity].
  apply find_some in F as [Hin Hm]. rewrite (Hno el Hin) in Hm. discriminate.
Qed.

Lemma extractTranscript_missing_container_witness :
  TranscriptExtractor.extractTranscript TranscriptExtractor.new
    (Sample.env Sample.noContainer true) Sample.start =
  (Effect.Normal [],
   Effect.addEvents Sample.start
     [Effect.ConsoleWarn (js "Transcript body not found on this page")]).
Proof.
  apply (extractTranscript_missing_container TranscriptExtractor.new
           (Sample.env Sample.noContainer true) Sample.start).
  apply Forall_forall. vm_compute. repeat constructor.
Defined.

(** C2: [extractContentOnly] is the pointwise projection of
    [extractTranscript] onto the content field: run from the same state,
    both complete normally and leave the same world, the content list has
    the length of the entry list, and its element [i] is the content of
    entry [i]. *)
Theorem extractContentOnly_projection
  (this : TranscriptExtractor.t) (env : Effect.Env) (w : Effect.World) :
  exists entries contents w',
    TranscriptExtractor.extractTranscript this env w = (Effect.Normal entries, w')
    /\ TranscriptExtractor.extractContentOnly this env w
       = (Effect.Normal contents, w')
    /\ contents = map TranscriptExtractor.content entries
    /\ length contents = length entries
    /\ forall i, nth_error contents i
                 = option_map TranscriptExtractor.content (nth_error entries i).
Proof.
  eexists _, _, _.
  rewrite ExtractFacts.extractTranscript_eq, ExtractFacts.extractContentOnly_eq.
  repeat split.
  - apply length_map.
  - intros i. apply nth_error_map.
Qed.

(** C3: [extractContentAsText(sep)] is the elements of
    [extractContentOnly()] joined with [sep], a separator between each two
    neighbours; with zero entries it is the empty string; and the omitted
    separator is a single space. *)
Theorem extractContentAsText_join
  (this : TranscriptExtractor.t) (env : Effect.Env) (w : Effect.World) :
  exists contents w',
    TranscriptExtractor.extractContentOnly this env w
    = (Effect.Normal contents, w')
    /\ (forall sep,
          TranscriptExtractor.extractContentAsText this (Some sep) env w
          = (Effect.Normal (JSString.join contents sep), w')
          /\ JSString.join contents sep = Spec.joined sep contents)
    /\ (forall sep,
          contents = [] ->
          TranscriptExtractor.extractContentAsText this (Some sep) env w
          = (Effect.Normal JSString.empty, w'))
    /\ TranscriptExtractor.extractContentAsText this None env w
       = TranscriptExtractor.extractContentAsText this (Some [32%N]) env w.
Proof.
  eexists _, _. rewrite ExtractFacts.extractContentOnly_eq.
  split; [reflexivity|]. split; [|split].
  - intros sep. rewrite ExtractFacts.extractContentAsText_eq.
    split; [reflexivity | apply join_joined].
  - intros sep Hnil. rewrite ExtractFacts.extractContentAsText_eq, Hnil.
    reflexivity.
  - reflexivity.
Qed.

Lemma extractContentAsText_join_witness :
  TranscriptExtractor.extractContentAsText TranscriptExtractor.new
    (Some (js ", ")) (Sample.env Sample.emptyContainer true) Sample.start
  = (Effect.Normal JSString.empty, Sample.start).
Proof.
  destruct (extractContentAsText_join TranscriptExtractor.new
              (Sample.env Sample.emptyContainer true) Sample.start)
    as (contents & w' & Hc & _ & Hzero & _).
  vm_compute in Hc. injection Hc as Hc Hw. subst contents w'.
  exact (Hzero (js ", ") eq_refl).
Defined.

(* ================================================================= *)
(** ** Clipboard *)

(** C4: round trip.  With at least one entry, whatever
    [copyToClipboard(false, sep)] hands to the clipboard is exactly the
    string that [extractContentAsText(sep)] returns on the same document:
    where [navigator.clipboard] exists it hands over that one text and
    nothing else, and when the platform grants the write the clipboard
    then holds that string and the call returns [true]; when the write
    fails the result is [false] and the clipboard is unchanged.  (Where
    [navigator.clipboard] does not exist nothing is handed over.) *)
Theorem copyToClipboard_round_trip
  (this : TranscriptExtractor.t) (sep : jsstring)
  (env : Effect.Env) (w : Effect.World)
  (entries : list TranscriptExtractor.Entry) :
  Effect.result (TranscriptExtractor.extractTranscript this) env w
    = Effect.Normal entries ->
  entries <> [] ->
  let copy := TranscriptExtractor.copyToClipboard this (Some false) (Some sep) in
  exists text,
    Effect.result (TranscriptExtractor.extractContentAsText this (Some sep)) env w
      = Effect.Normal text
    /\ Effect.clipboardRequests (Effect.events (Effect.after copy env w))
       = Effect.clipboardRequests (Effect.events w)
         ++ match Effect.navigatorClipboard env with
            | Some _ => [text]
            | None => []
            end
    /\ match Effect.clipboardAnswer env text with
       | None => Effect.result copy env w = Effect.Normal true
                 /\ Effect.clipboard (Effect.after copy env w) = Some text
       | Some _ => Effect.result copy env w = Effect.Normal false
                   /\ Effect.clipboard (Effect.after copy env w)
                      = Effect.clipboard w
       end.
Proof.
  intros He Hne copy.
  apply ExtractFacts.extractTranscript_result in He.
  destruct entries as [|e rest]; [congruence|]. symmetry in He.
  destruct (@ExtractFacts.copyToClipboard_requests this (Some false) (Some sep)
              env w e rest He) as [Hreq Hans].
  cbn [Effect.withDefault TranscriptExtractor.renderEntries] in Hreq, Hans.
  eexists. split; [|split; [exact Hreq|]].
  - unfold Effect.result.
    now rewrite ExtractFacts.extractContentAsText_eq, He.
  - cbn [Effect.withDefault].
    destruct (Effect.clipboardAnswer env _); [|exact Hans].
    destruct Hans as (Hr & Hc & _). now split.
Qed.

Lemma copyToClipboard_round_trip_witness :
  let copy := TranscriptExtractor.copyToClipboard TranscriptExtractor.new
                (Some false) (Some (js " ")) in
  let env := Sample.env Sample.twoEntries true in
  Effect.clipboardRequests (Effect.events (Effect.after copy env Sample.start))
    = [js "Hello world"]
  /\ Effect.clipboard (Effect.after copy env Sample.start)
     = Some (js "Hello world").
Proof.
  intros copy env.
  destruct (copyToClipboard_round_trip TranscriptExtractor.new (js " ") env
              Sample.start
              (entries := [ {| TranscriptExtractor.timestamp := js "00:00:01";
                               TranscriptExtractor.content := js "Hello" |};
                            {| TranscriptExtractor.timestamp := js "00:00:05";
                               TranscriptExtractor.content := js "world" |} ])
              eq_refl ltac:(discriminate))
    as (text & Ht & Hreq & Hans).
  vm_compute in Ht. injection Ht as <-.
  split; [exact Hreq | exact (proj2 Hans)].
Defined.

(** C5: [copyToClipboard] never throws: it always completes with a
    boolean.  With zero entries the boolean is [false], no clipboard write
    is requested and the clipboard is unchanged.  With entries, where
    [navigator.clipboard] does not exist the [TypeError] of the failed
    read is caught and logged, nothing is requested and the boolean is
    [false]; where it exists one write is requested, and the boolean is
    [true] when the write succeeds, and when it fails the error is caught
    and logged and the boolean is [false]. *)
Theorem copyToClipboard_catches
  (this : TranscriptExtractor.t) (includeTimestamps : option bool)
  (separator : option jsstring) (env : Effect.Env) (w : Effect.World)
  (entries : list TranscriptExtractor.Entry) :
  Effect.result (TranscriptExtractor.extractTranscript this) env w
    = Effect.Normal entries ->
  let copy := TranscriptExtractor.copyToClipboard this includeTimestamps
                separator in
  let w' := Effect.after copy env w in
  (exists b, Effect.result copy env w = Effect.Normal b)
  /\ match entries with
     | [] =>
         Effect.result copy env w = Effect.Normal false
         /\ Effect.clipboardRequests (Effect.events w')
            = Effect.clipboardRequests (Effect.events w)
         /\ Effect.clipboard w' = Effect.clipboard w
     | _ :: _ =>
         match Effect.navigatorClipboard env with
         | None =>
             Effect.result copy env w = Effect.Normal false
             /\ Effect.clipboardRequests (Effect.events w')
                = Effect.clipboardRequests (Effect.events w)
             /\ Effect.clipboard w' = Effect.clipboard w
             /\ exists error,
                  Effect.errorName error = js "TypeError"
                  /\ In (Effect.ConsoleError
                           (js "Failed to copy to clipboard:") error)
                        (Effect.events w')
         | Some answer =>
             exists text,
               Effect.clipboardRequests (Effect.events w')
               = Effect.clipboardRequests (Effect.events w) ++ [text]
               /\ match answer text with
                  | None => Effect.result copy env w = Effect.Normal true
                  | Some error =>
                      Effect.result copy env w = Effect.Normal false
                      /\ In (Effect.ConsoleError
                               (js "Failed to copy to clipboard:") error)
                            (Effect.events w')
                  end
         end
     end.
Proof.
  intros He copy w'.
  apply ExtractFacts.extractTranscript_result in He.
  destruct entries as [|e rest].
  - unfold w', Effect.result, Effect.after, copy.
    rewrite ExtractFacts.copyToClipboard_eq. rewrite <- He.
    cbn [fst snd Effect.events Effect.clipboard Effect.addEvents].
    rewrite !ExtractFacts.clipboardRequests_app,
            ExtractFacts.clipboardRequests_missingDiagnostic.
    simpl. rewrite app_nil_r. eauto.
  - symmetry in He.
    destruct (@ExtractFacts.copyToClipboard_requests this includeTimestamps
                separator env w e rest He) as [Hreq Hans].
    fold copy in Hreq, Hans. fold w' in Hreq, Hans.
    unfold Effect.clipboardAnswer in Hans.
    destruct (Effect.navigatorClipboard env) as [answer|].
    + split.
      * destruct (answer _); [destruct Hans as (H & _)|destruct Hans as (H & _)];
          eauto.
      * eexists. split; [exact Hreq|].
        destruct (answer _); [|exact (proj1 Hans)].
        destruct Hans as (Hr & _ & Hin). now split.
    + destruct Hans as (Hr & Hc & Hin). split; [eauto|].
      rewrite app_nil_r in Hreq. repeat split; auto.
      eexists. split; [|exact Hin]. reflexivity.
Qed.

Lemma copyToClipboard_catches_witness :
  let copy := TranscriptExtractor.copyToClipboard TranscriptExtractor.new
                None None in
  Effect.result copy (Sample.env Sample.twoEntries false) Sample.start
  = Effect.Normal false
  /\ Effect.result copy (Sample.envWithoutClipboard Sample.twoEntries)
       Sample.start
     = Effect.Normal false
  /\ Effect.clipboardRequests
       (Effect.events
          (Effect.after copy (Sample.envWithoutClipboard Sample.twoEntries)
                        Sample.start)) = [].
Proof.
  intros copy. split.
  - destruct (copyToClipboard_catches TranscriptExtractor.new None None
                (Sample.env Sample.twoEntries false) Sample.start
                (entries := [ {| TranscriptExtractor.timestamp := js "00:00:01";
                                 TranscriptExtractor.content := js "Hello" |};
                              {| TranscriptExtractor.timestamp := js "00:00:05";
                                 TranscriptExtractor.content := js "world" |} ])
                eq_refl)
      as (_ & text & _ & Hans).
    exact (proj1 Hans).
  - destruct (copyToClipboard_catches TranscriptExtractor.new None None
                (Sample.envWithoutClipboard Sample.twoEntries) Sample.start
                (entries := [ {| TranscriptExtractor.timestamp := js "00:00:01";
                                 TranscriptExtractor.content := js "Hello" |};
                              {| TranscriptExtractor.timestamp := js "00:00:05";
                                 TranscriptExtractor.content := js "world" |} ])
                eq_refl)
      as (_ & Hr & Hreq & _).
    split; [exact Hr | exact Hreq].
Defined.

(* ================================================================= *)
(** ** Summary *)

Module SummaryFacts.
Import DOM Effect TranscriptExtractor Spec.

Lemma index_last {A} (front : list A) (x : A) :
  nth_error (front ++ [x]) (length (front ++ [x]) - 1) = Some x.
Proof.
  rewrite length_app. simpl.
  replace (length front + 1 - 1) with (length front) by lia.
  rewrite nth_error_app2 by lia. now rewrite Nat.sub_diag.
Qed.

(** [getSummary] on a document without entries. *)
Lemma getSummary_empty (this : t) (env : Env) (w : World) :
  extracted this (document env) = [] ->
  result (getSummary this) env w =
  Normal {| totalEntries := 0;
            totalCharacters := 0;
            totalWords := 1;
            duration := js "00:00:00";
            firstTimestamp := None;
            lastTimestamp := None |}.
Proof.
  intros E. unfold result, getSummary, bind.
  rewrite ExtractFacts.extractTranscript_eq,
          ExtractFacts.extractContentAsText_eq, E.
  reflexivity.
Qed.

(** [getSummary] on a document with entries: the guarded reads of
    [entries[0]] and [entries[entries.length - 1]] succeed. *)
Lemma getSummary_nonempty (this : t) (env : Env) (w : World)
      (first lastEntry : Entry) (rest front : list Entry) :
  extracted this (document env) = first :: rest ->
  extracted this (document env) = front ++ [lastEntry] ->
  let text := JSString.join (map content (first :: rest)) (js " ") in
  result (getSummary this) env w =
  Normal {| totalEntries := length (first :: rest);
            totalCharacters := length text;
            totalWords := length (JSString.splitWhiteSpace text);
            duration := timestamp lastEntry;
            firstTimestamp := Some (timestamp first);
            lastTimestamp := Some (timestamp lastEntry) |}.
Proof.
  intros E1 E2 text. unfold result, getSummary, bind.
  rewrite ExtractFacts.extractTranscript_eq,
          ExtractFacts.extractContentAsText_eq.
  assert (Hlast : index (extracted this (document env))
                        (length (extracted this (document env)) - 1)
                        (js "timestamp")
                  = ret lastEntry).
  { unfold index. now rewrite E2, index_last. }
  rewrite Hlast, E1. reflexivity.
Qed.

End SummaryFacts.

(** C6: with zero extracted entries [getSummary] returns exactly
    [{ totalEntries: 0, totalCharacters: 0, totalWords: 1,
       duration: "00:00:00", firstTimestamp: null, lastTimestamp: null }];
    the word count is 1 because splitting the empty string at white space
    yields one empty piece. *)
Theorem getSummary_zero_entries
  (this : TranscriptExtractor.t) (env : Effect.Env) (w : Effect.World) :
  Effect.result (TranscriptExtractor.extractTranscript this) env w
    = Effect.Normal [] ->
  Effect.result (TranscriptExtractor.getSummary this) env w =
  Effect.Normal
    {| TranscriptExtractor.totalEntries := 0;
       TranscriptExtractor.totalCharacters := 0;
       TranscriptExtractor.totalWords := 1;
       TranscriptExtractor.duration := js "00:00:00";
       TranscriptExtractor.firstTimestamp := None;
       TranscriptExtractor.lastTimestamp := None |}
  /\ JSString.splitWhiteSpace JSString.empty = [JSString.empty].
Proof.
  intros He. apply ExtractFacts.extractTranscript_result in He.
  split; [|reflexivity].
  now apply SummaryFacts.getSummary_empty.
Qed.

Lemma getSummary_zero_entries_witness :
  Effect.result (TranscriptExtractor.extractTranscript TranscriptExtractor.new)
    (Sample.env Sample.noContainer true) Sample.start = Effect.Normal []
  /\ Effect.result (TranscriptExtractor.getSummary TranscriptExtractor.new)
       (Sample.env Sample.noContainer true) Sample.start =
     Effect.Normal
       {| TranscriptExtractor.totalEntries := 0;
          TranscriptExtractor.totalCharacters := 0;
          TranscriptExtractor.totalWords := 1;
          TranscriptExtractor.duration := js "00:00:00";
          TranscriptExtractor.firstTimestamp := None;
          TranscriptExtractor.lastTimestamp := None |}.
Proof.
  split; [reflexivity|].
  exact (proj1 (@getSummary_zero_entries TranscriptExtractor.new
                  (Sample.env Sample.noContainer true) Sample.start eq_refl)).
Defined.

(** C7: with at least one extracted entry, the summary's [duration] is the
    timestamp string of the last entry of [extractTranscript()], as it
    stands, and [firstTimestamp] and [lastTimestamp] are the timestamps of
    the first and of the last entry. *)
Theorem getSummary_timestamps
  (this : TranscriptExtractor.t) (env : Effect.Env) (w : Effect.World)
  (entries rest front : list TranscriptExtractor.Entry)
  (first lastEntry : TranscriptExtractor.Entry) :
  Effect.result (TranscriptExtractor.extractTranscript this) env w
    = Effect.Normal entries ->
  entries = first :: rest ->
  entries = front ++ [lastEntry] ->
  exists s,
    Effect.result (TranscriptExtractor.getSummary this) env w = Effect.Normal s
    /\ TranscriptExtractor.duration s = TranscriptExtractor.timestamp lastEntry
    /\ TranscriptExtractor.firstTimestamp s
       = Some (TranscriptExtractor.timestamp first)
    /\ TranscriptExtractor.lastTimestamp s
       = Some (TranscriptExtractor.timestamp lastEntry)
    /\ TranscriptExtractor.totalEntries s = length entries.
Proof.
  intros He E1 E2. apply ExtractFacts.extractTranscript_result in He.
  rewrite He in E1, E2.
  eexists. split.
  - apply SummaryFacts.getSummary_nonempty with (rest := rest) (front := front).
    + exact E1.
    + exact E2.
  - cbn [TranscriptExtractor.duration TranscriptExtractor.firstTimestamp
         TranscriptExtractor.lastTimestamp TranscriptExtractor.totalEntries].
    rewrite He, E1. auto.
Qed.

Lemma getSummary_timestamps_witness :
  exists s,
    Effect.result (TranscriptExtractor.getSummary TranscriptExtractor.new)
      (Sample.env Sample.twoEntries true) Sample.start = Effect.Normal s
    /\ TranscriptExtractor.duration s = js "00:00:05"
    /\ TranscriptExtractor.firstTimestamp s = Some (js "00:00:01")
    /\ TranscriptExtractor.lastTimestamp s = Some (js "00:00:05")
    /\ TranscriptExtractor.totalEntries s = 2.
Proof.
  exact (@getSummary_timestamps TranscriptExtractor.new
           (Sample.env Sample.twoEntries true) Sample.start
           [ {| TranscriptExtractor.timestamp := js "00:00:01";
                TranscriptExtractor.content := js "Hello" |};
             {| TranscriptExtractor.timestamp := js "00:00:05";
                TranscriptExtractor.content := js "world" |} ]
           [ {| TranscriptExtractor.timestamp := js "00:00:05";
                TranscriptExtractor.content := js "world" |} ]
           [ {| TranscriptExtractor.timestamp := js "00:00:01";
                TranscriptExtractor.content := js "Hello" |} ]
           {| TranscriptExtractor.timestamp := js "00:00:01";
              TranscriptExtractor.content := js "Hello" |}
           {| TranscriptExtractor.timestamp := js "00:00:05";
              TranscriptExtractor.content := js "world" |}
           eq_refl eq_refl eq_refl).
Defined.

(* ================================================================= *)
(** ** Download and the default separators *)

Module DownloadFacts.
Import DOM Effect TranscriptExtractor Spec.

(** Without entries [downloadTranscript] warns and returns. *)
Lemma downloadTranscript_empty (this : t) filename includeTimestamps separator
      (env : Env) (w : World) :
  extracted this (document env) = [] ->
  downloadTranscript this filename includeTimestamps separator env w =
  (Normal tt,
   addEvents w (missingDiagnostic this (document env)
                ++ [ConsoleWarn (js "No transcript content found")])).
Proof.
  intros E. unfold downloadTranscript, bind.
  rewrite ExtractFacts.extractTranscript_eq, E. simpl.
  unfold consoleWarn, emit, ret, addEvents. simpl.
  now rewrite <- app_assoc.
Qed.

(** With entries the first effect after the extraction is the blob
    holding the rendered text, whatever happens afterwards. *)
Lemma downloadTranscript_blob (this : t) filename includeTimestamps separator
      (env : Env) (w : World) (e : Entry) (rest : list Entry) :
  extracted this (document env) = e :: rest ->
  let text := renderEntries (e :: rest) (withDefault false includeTimestamps)
                            (withDefault [10; 10]%N separator) in
  exists tail,
    events (after (downloadTranscript this filename includeTimestamps
                                      separator) env w) =
    events w ++ missingDiagnostic this (document env)
      ++ NewBlob {| blobParts := [text]; blobType := js "text/plain" |}
      :: tail.
Proof.
  intros E text. unfold after, downloadTranscript, bind.
  rewrite ExtractFacts.extractTranscript_eq, E.
  cbn [length Nat.eqb]. fold text.
  unfold newBlob, createObjectURL, getDocument, emit, consoleLog, emit,
    throw, addEvents.
  cbn [events clipboard].
  destruct (body (document env)); cbn [snd events clipboard];
    rewrite <- !app_assoc; simpl; eexists; reflexivity.
Qed.

Lemma joined_separator_matters (a b : jsstring) (l : list jsstring) :
  length a <> length b -> 2 <= length l -> joined a l <> joined b l.
Proof.
  intros Hab Hl Heq. apply (f_equal (@length _)) in Heq.
  rewrite !joined_length in Heq. nia.
Qed.

End DownloadFacts.

(** C9: with zero extracted entries [downloadTranscript(filename,
    includeTimestamps, separator)] saves no file: it completes normally
    with no value, leaves the clipboard alone, and everything it emits is a
    diagnostic, the warning that no content was found among them; no blob,
    object URL or anchor is created and no click is triggered. *)
Theorem downloadTranscript_zero_entries
  (this : TranscriptExtractor.t) (filename : option jsstring)
  (includeTimestamps : option bool) (separator : option jsstring)
  (env : Effect.Env) (w : Effect.World) :
  Effect.result (TranscriptExtractor.extractTranscript this) env w
    = Effect.Normal [] ->
  exists diag,
    TranscriptExtractor.downloadTranscript this filename includeTimestamps
      separator env w = (Effect.Normal tt, Effect.addEvents w diag)
    /\ Forall Spec.isDiagnostic diag
    /\ existsb Effect.isFileSaveEvent diag = false
    /\ In (Effect.ConsoleWarn (js "No transcript content found")) diag.
Proof.
  intros He. apply ExtractFacts.extractTranscript_result in He.
  eexists. split.
  - apply DownloadFacts.downloadTranscript_empty. now symmetry.
  - assert (Hwarn : forall m, Spec.isDiagnostic (Effect.ConsoleWarn m))
      by (intros m; now exists m).
    destruct (ExtractFacts.missingDiagnostic_cases this (Effect.document env))
      as [-> | [-> _]]; simpl; (split; [|split]);
      auto using Forall_cons, Forall_nil.
Qed.

Lemma downloadTranscript_zero_entries_witness :
  Effect.result (TranscriptExtractor.extractTranscript TranscriptExtractor.new)
    (Sample.env Sample.emptyContainer true) Sample.start = Effect.Normal []
  /\ exists diag,
       TranscriptExtractor.downloadTranscript TranscriptExtractor.new
         (Some (js "talk.txt")) (Some true) None
         (Sample.env Sample.emptyContainer true) Sample.start
       = (Effect.Normal tt, Effect.addEvents Sample.start diag)
       /\ Forall Spec.isDiagnostic diag
       /\ existsb Effect.isFileSaveEvent diag = false
       /\ In (Effect.ConsoleWarn (js "No transcript content found")) diag.
Proof.
  split; [reflexivity|].
  exact (@downloadTranscript_zero_entries TranscriptExtractor.new
           (Some (js "talk.txt")) (Some true) None
           (Sample.env Sample.emptyContainer true) Sample.start eq_refl).
Defined.

(** C10: an omitted separator is two newlines in [copyToClipboard] and in
    [downloadTranscript], and one space in [extractContentAsText].  So with
    at least two entries, what [copyToClipboard()] with all defaults hands
    to the clipboard (one text where [navigator.clipboard] exists, nothing
    where it does not) is the contents joined with two newlines, the blob
    of [downloadTranscript()] holds the same text, and that text differs
    from what [extractContentAsText()] with its default returns. *)
Theorem default_separators_differ
  (this : TranscriptExtractor.t) (env : Effect.Env) (w : Effect.World)
  (entries : list TranscriptExtractor.Entry) :
  Effect.result (TranscriptExtractor.extractTranscript this) env w
    = Effect.Normal entries ->
  2 <= length entries ->
  let contents := map TranscriptExtractor.content entries in
  let copied := Spec.joined [10; 10]%N contents in
  let text := Spec.joined [32%N] contents in
  (forall includeTimestamps,
      TranscriptExtractor.copyToClipboard this includeTimestamps None
      = TranscriptExtractor.copyToClipboard this includeTimestamps
          (Some [10; 10]%N))
  /\ (forall filename includeTimestamps,
         TranscriptExtractor.downloadTranscript this filename
           includeTimestamps None
         = TranscriptExtractor.downloadTranscript this filename
             includeTimestamps (Some [10; 10]%N))
  /\ Effect.clipboardRequests
       (Effect.events
          (Effect.after (TranscriptExtractor.copyToClipboard this None None)
                        env w))
     = Effect.clipboardRequests (Effect.events w)
       ++ match Effect.navigatorClipboard env with
          | Some _ => [copied]
          | None => []
          end
  /\ In (Effect.NewBlob {| Effect.blobParts := [copied];
                           Effect.blobType := js "text/plain" |})
        (Effect.events
           (Effect.after
              (TranscriptExtractor.downloadTranscript this None None None)
              env w))
  /\ Effect.result (TranscriptExtractor.extractContentAsText this None) env w
     = Effect.Normal text
  /\ copied <> text.
Proof.
  intros He Hlen contents copied text.
  apply ExtractFacts.extractTranscript_result in He.
  split; [reflexivity|]. split; [reflexivity|].
  destruct entries as [|e rest]; [simpl in Hlen; lia|].
  symmetry in He.
  split; [|split; [|split]].
  - destruct (@ExtractFacts.copyToClipboard_requests this None None
                env w e rest He) as [Hreq _].
    cbn [Effect.withDefault TranscriptExtractor.renderEntries] in Hreq.
    rewrite join_joined in Hreq. exact Hreq.
  - destruct (@DownloadFacts.downloadTranscript_blob this None None None env w
                e rest He) as (tail & Htail).
    refine (eq_ind_r (fun l => In _ l) _ Htail).
    cbn [Effect.withDefault TranscriptExtractor.renderEntries].
    rewrite join_joined. rewrite !in_app_iff. right. right. now left.
  - unfold Effect.result. rewrite ExtractFacts.extractContentAsText_eq, He.
    cbn [Effect.withDefault fst]. now rewrite join_joined.
  - apply DownloadFacts.joined_separator_matters; [simpl; lia|].
    unfold contents. now rewrite length_map.
Qed.

Lemma default_separators_differ_witness :
  Effect.clipboardRequests
    (Effect.events
       (Effect.after
          (TranscriptExtractor.copyToClipboard TranscriptExtractor.new None None)
          (Sample.env Sample.twoEntries true) Sample.start))
  = [js "Hello" ++ [10; 10]%N ++ js "world"]
  /\ Effect.result
       (TranscriptExtractor.extractContentAsText TranscriptExtractor.new None)
       (Sample.env Sample.twoEntries true) Sample.start
     = Effect.Normal (js "Hello world").
Proof.
  destruct (@default_separators_differ TranscriptExtractor.new
              (Sample.env Sample.twoEntries true) Sample.start
              [ {| TranscriptExtractor.timestamp := js "00:00:01";
                   TranscriptExtractor.content := js "Hello" |};
                {| TranscriptExtractor.timestamp := js "00:00:05";
                   TranscriptExtractor.content := js "world" |} ]
              eq_refl (le_n 2))
    as (_ & _ & Hcopy & _ & Htext & _).
  split; [exact Hcopy | exact Htext].
Defined.

(* ================================================================= *)
(** ** The scenarios of the specification, evaluated *)

Module Scenario.
Import DOM Effect TranscriptExtractor Sample.

Example two_entries_extracted :
  result (extractTranscript new) (env twoEntries true) start =
  Normal [ {| timestamp := js "00:00:01"; content := js "Hello" |};
           {| timestamp := js "00:00:05"; content := js "world" |} ].
Proof. reflexivity. Qed.

Example two_entries_as_text :
  result (extractContentAsText new (Some (js " "))) (env twoEntries true) start
  = Normal (js "Hello world").
Proof. reflexivity. Qed.

Example two_entries_summary :
  result (getSummary new) (env twoEntries true) start =
  Normal {| totalEntries := 2;
            totalCharacters := 11;
            totalWords := 2;
            duration := js "00:00:05";
            firstTimestamp := Some (js "00:00:01");
            lastTimestamp := Some (js "00:00:05") |}.
Proof. reflexivity. Qed.

Example copy_with_timestamps :
  clipboard (after (copyToClipboard new (Some true) (Some (js " | ")))
                   (env twoEntries true) start)
  = Some (js "00:00:01: Hello | 00:00:05: world").
Proof. reflexivity. Qed.

Example download_saves_one_file :
  events (after (downloadTranscript new None None (Some (js " ")))
                (env twoEntries true) start) =
  let blob := {| blobParts := [js "Hello world"];
                 blobType := js "text/plain" |} in
  let url := js "blob:https://learning.oreilly.com/1" in
  [NewBlob blob; CreateObjectURL blob url; CreateElement (js "a");
   AppendChild url (js "transcript.txt"); Click url (js "transcript.txt");
   RemoveChild url (js "transcript.txt"); RevokeObjectURL url;
   ConsoleLog (js "Downloaded transcript with 2 entries")].
Proof. reflexivity. Qed.

Example split_keeps_empty_edges :
  JSString.splitWhiteSpace (js " Hello  big world ") =
  [[]; js "Hello"; js "big"; js "world"; []].
Proof. reflexivity. Qed.

Example no_container_no_download :
  downloadTranscript new None None None (env noContainer true) start =
  (Normal tt,
   addEvents start
     [ConsoleWarn (js "Transcript body not found on this page");
      ConsoleWarn (js "No transcript content found")]).
Proof. reflexivity. Qed.

End Scenario.


(* ================================================================= *)
(** ** Further properties of the extractor *)

Module MoreFacts.
Import DOM Effect TranscriptExtractor Spec Props.

Lemma trim_trimmed (s : jsstring) : trimmed (JSString.trim s).
Proof.
  destruct (trim_spec s) as (pre & post & _ & _ & _ & Hs & He).
  now split.
Qed.

Lemma visitButton_trimmed (this : t) (b : Node) :
  Forall (fun e => trimmed (timestamp e) /\ trimmed (content e))
         (visitButton this [] b).
Proof.
  unfold visitButton.
  destruct (querySelector b (pWithClass (timestampClass this))),
           (querySelector b (pWithClass (contentClass this)));
    simpl; repeat constructor; simpl; apply trim_trimmed.
Qed.

Lemma extracted_trimmed (this : t) (d : Document) :
  Forall (fun e => trimmed (timestamp e) /\ trimmed (content e))
         (extracted this d).
Proof.
  unfold extracted. destruct (documentQuerySelector _ _) as [c|]; [|constructor].
  rewrite ExtractFacts.forEach_visitButton. simpl.
  induction (candidates c) as [|b rest IH]; simpl; [constructor|].
  apply Forall_app. split; [apply visitButton_trimmed | exact IH].
Qed.

Lemma extracted_nonempty_no_diagnostic (this : t) (d : Document) :
  extracted this d <> [] -> missingDiagnostic this d = [].
Proof.
  intros Hne.
  destruct (ExtractFacts.missingDiagnostic_cases this d) as [H | [_ H]];
    [exact H | contradiction].
Qed.

Lemma splitLoop_nonempty (s : jsstring) :
  forall m p, 1 <= length (JSString.splitLoop m p s).
Proof.
  induction s as [|c r IH]; intros m p; simpl; [lia|].
  destruct (JSString.isWhiteSpace c); [destruct m|]; simpl; auto with arith.
Qed.

Lemma pieceCount_positive (s : jsstring) : 1 <= pieceCount s.
Proof.
  unfold pieceCount, JSString.splitWhiteSpace.
  destruct s; [simpl; lia | apply splitLoop_nonempty].
Qed.

(** The value of [getSummary], whatever the document. *)
Lemma getSummary_value (this : t) (env : Env) (w : World) :
  exists s,
    result (getSummary this) env w = Normal s
    /\ totalEntries s = length (extracted this (document env))
    /\ totalCharacters s
       = length (JSString.join (map content (extracted this (document env)))
                               (js " "))
    /\ totalWords s
       = pieceCount (JSString.join (map content (extracted this (document env)))
                                   (js " ")).
Proof.
  destruct (extracted this (document env)) as [|e rest] eqn:E.
  - eexists. split; [now apply SummaryFacts.getSummary_empty|].
    now repeat split.
  - destruct (@exists_last _ (e :: rest)) as (front & lastEntry & Hl);
      [discriminate|].
    eexists. split.
    + apply SummaryFacts.getSummary_nonempty with (rest := rest) (front := front).
      * exact E.
      * rewrite E. exact Hl.
    + now repeat split.
Qed.

(** The world after [getSummary]: two extractions, nothing else. *)
Lemma getSummary_after (this : t) (env : Env) (w : World) :
  after (getSummary this) env w =
  addEvents w (missingDiagnostic this (document env)
               ++ missingDiagnostic this (document env)).
Proof.
  unfold after, getSummary, bind.
  rewrite ExtractFacts.extractTranscript_eq,
          ExtractFacts.extractContentAsText_eq.
  rewrite ExtractFacts.addEvents_addEvents.
  destruct (extracted this (document env)) as [|e rest] eqn:E.
  - reflexivity.
  - destruct (@exists_last _ (e :: rest)) as (front & lastEntry & Hl);
      [discriminate|].
    assert (Hlast : index (e :: rest) (length (e :: rest) - 1) (js "timestamp")
                    = ret lastEntry).
    { unfold index. now rewrite Hl, SummaryFacts.index_last. }
    rewrite Hlast. reflexivity.
Qed.

End MoreFacts.

(** X1: every entry [extractTranscript] returns is trimmed: neither its
    timestamp nor its content starts or ends with white space (they may be
    empty), and there is always such a result: the call never throws. *)
Theorem extractTranscript_entries_trimmed
  (this : TranscriptExtractor.t) (env : Effect.Env) (w : Effect.World) :
  exists entries,
    Effect.result (TranscriptExtractor.extractTranscript this) env w
    = Effect.Normal entries
    /\ Forall (fun e => Props.trimmed (TranscriptExtractor.timestamp e)
                        /\ Props.trimmed (TranscriptExtractor.content e))
              entries.
Proof.
  exists (Spec.extracted this (Effect.document env)). split.
  - unfold Effect.result. now rewrite ExtractFacts.extractTranscript_eq.
  - apply MoreFacts.extracted_trimmed.
Qed.

(** X2: [getSummary] never throws, and its counts are those of the
    extraction: [totalEntries] is the number of entries, [totalCharacters]
    the length of the default text, which is the lengths of the contents
    plus one separating space between neighbours, and [totalWords] is at
    least 1 whatever the document holds. *)
Theorem getSummary_counts
  (this : TranscriptExtractor.t) (env : Effect.Env) (w : Effect.World) :
  exists entries text s,
    Effect.result (TranscriptExtractor.extractTranscript this) env w
    = Effect.Normal entries
    /\ Effect.result (TranscriptExtractor.extractContentAsText this None) env w
       = Effect.Normal text
    /\ Effect.result (TranscriptExtractor.getSummary this) env w
       = Effect.Normal s
    /\ TranscriptExtractor.totalEntries s = length entries
    /\ TranscriptExtractor.totalCharacters s = length text
    /\ length text
       = Spec.totalLength (map TranscriptExtractor.content entries)
         + (length entries - 1)
    /\ 1 <= TranscriptExtractor.totalWords s.
Proof.
  destruct (MoreFacts.getSummary_value this env w) as (s & Hs & Hn & Hc & Hw).
  eexists _, _, s. unfold Effect.result.
  rewrite ExtractFacts.extractTranscript_eq, ExtractFacts.extractContentAsText_eq.
  cbn [fst Effect.withDefault].
  repeat split; auto.
  - rewrite join_joined, joined_length, length_map. simpl. lia.
  - rewrite Hw. apply MoreFacts.pieceCount_positive.
Qed.

(** X3: [getSummary] only reads: it leaves the clipboard and the event
    trace alone when the container is present, and when the container is
    missing it emits the missing-container warning twice, once for each of
    its two extractions, and nothing else. *)
Theorem getSummary_warns_twice
  (this : TranscriptExtractor.t) (env : Effect.Env) (w : Effect.World) :
  Effect.after (TranscriptExtractor.getSummary this) env w =
  match DOM.documentQuerySelector (Effect.document env)
          (TranscriptExtractor.transcriptBodySelector this) with
  | Some _ => w
  | None =>
      Effect.addEvents w
        [Effect.ConsoleWarn (js "Transcript body not found on this page");
         Effect.ConsoleWarn (js "Transcript body not found on this page")]
  end.
Proof.
  rewrite MoreFacts.getSummary_after. unfold Spec.missingDiagnostic.
  destruct (DOM.documentQuerySelector _ _); [|reflexivity].
  apply ExtractFacts.addEvents_nil.
Qed.

Module SaveFacts.
Import DOM Effect TranscriptExtractor Spec Props.

(** The three ways [downloadTranscript] runs: nothing to save, the file
    saved, the save stopped at the missing [document.body]. *)
Lemma downloadTranscript_eq (this : t) filename includeTimestamps separator
      (env : Env) (w : World) :
  let entries := extracted this (document env) in
  let diag := missingDiagnostic this (document env) in
  let text := renderEntries entries (withDefault false includeTimestamps)
                            (withDefault [10; 10]%N separator) in
  let url := mintObjectURL env
               {| blobParts := [text]; blobType := js "text/plain" |} in
  downloadTranscript this filename includeTimestamps separator env w =
  match entries with
  | [] =>
      (Normal tt,
       addEvents w (diag ++ [ConsoleWarn (js "No transcript content found")]))
  | _ :: _ =>
      match body (document env) with
      | Some _ =>
          (Normal tt,
           addEvents w
             (diag ++ fileSaveEvents text url
                        (withDefault (js "transcript.txt") filename)
                        (length entries)))
      | None =>
          (Throw (engineTypeError env JSNull (js "appendChild")),
           addEvents w (diag ++ abortedSaveEvents text url))
      end
  end.
Proof.
  cbv zeta. unfold downloadTranscript, bind.
  rewrite ExtractFacts.extractTranscript_eq.
  destruct (extracted this (document env)) as [|e rest] eqn:E.
  - simpl. unfold consoleWarn, emit, ret, addEvents. simpl.
    now rewrite <- app_assoc.
  - cbn [length Nat.eqb].
    unfold newBlob, createObjectURL, getDocument, consoleLog, emit,
      throwTypeError, addEvents, fileSaveEvents, abortedSaveEvents.
    cbn [events clipboard].
    destruct (body (document env)); cbn [events clipboard];
      f_equal; f_equal; rewrite <- !app_assoc; reflexivity.
Qed.

Lemma urlsCreated_app (a b : list Event) :
  urlsCreated (a ++ b) = urlsCreated a ++ urlsCreated b.
Proof. unfold urlsCreated. now rewrite flat_map_app. Qed.

Lemma urlsRevoked_app (a b : list Event) :
  urlsRevoked (a ++ b) = urlsRevoked a ++ urlsRevoked b.
Proof. unfold urlsRevoked. now rewrite flat_map_app. Qed.

End SaveFacts.

(** X4: with at least one entry and a [document.body],
    [downloadTranscript] completes normally after exactly one file save:
    a [text/plain] blob holding the rendered text, an object URL for it, an
    anchor carrying that URL and the file name (['transcript.txt'] when
    omitted) that is appended, clicked and removed again, the URL revoked,
    and a log line with the number of entries.  The one object URL created
    is the one revoked, and no diagnostic is emitted. *)
Theorem downloadTranscript_saves_and_releases
  (this : TranscriptExtractor.t) (filename : option jsstring)
  (includeTimestamps : option bool) (separator : option jsstring)
  (env : Effect.Env) (w : Effect.World)
  (entries : list TranscriptExtractor.Entry) (bodyElement : DOM.Node) :
  Effect.result (TranscriptExtractor.extractTranscript this) env w
    = Effect.Normal entries ->
  entries <> [] ->
  DOM.body (Effect.document env) = Some bodyElement ->
  let text := TranscriptExtractor.renderEntries entries
                (Effect.withDefault false includeTimestamps)
                (Effect.withDefault [10; 10]%N separator) in
  let url := Effect.mintObjectURL env
               {| Effect.blobParts := [text];
                  Effect.blobType := js "text/plain" |} in
  let download := TranscriptExtractor.downloadTranscript this filename
                    includeTimestamps separator in
  download env w =
  (Effect.Normal tt,
   Effect.addEvents w
     (Props.fileSaveEvents text url
        (Effect.withDefault (js "transcript.txt") filename) (length entries)))
  /\ Props.urlsCreated (Effect.events (Effect.after download env w))
     = Props.urlsCreated (Effect.events w) ++ [url]
  /\ Props.urlsRevoked (Effect.events (Effect.after download env w))
     = Props.urlsRevoked (Effect.events w) ++ [url].
Proof.
  intros He Hne Hbody text url download.
  apply ExtractFacts.extractTranscript_result in He.
  assert (Hrun : download env w =
                 (Effect.Normal tt,
                  Effect.addEvents w
                    (Props.fileSaveEvents text url
                       (Effect.withDefault (js "transcript.txt") filename)
                       (length entries)))).
  { unfold download. rewrite SaveFacts.downloadTranscript_eq.
    rewrite MoreFacts.extracted_nonempty_no_diagnostic by (now rewrite <- He).
    rewrite <- He, Hbody. destruct entries; [congruence|reflexivity]. }
  split; [exact Hrun|].
  unfold Effect.after. rewrite Hrun. cbn [snd Effect.addEvents Effect.events].
  now rewrite SaveFacts.urlsCreated_app, SaveFacts.urlsRevoked_app.
Qed.

Lemma downloadTranscript_saves_and_releases_witness :
  let download := TranscriptExtractor.downloadTranscript TranscriptExtractor.new
                    None None (Some (js " ")) in
  let url := js "blob:https://learning.oreilly.com/1" in
  download (Sample.env Sample.twoEntries true) Sample.start =
  (Effect.Normal tt,
   Effect.addEvents Sample.start
     (Props.fileSaveEvents (js "Hello world") url (js "transcript.txt") 2))
  /\ Props.urlsCreated
       (Effect.events
          (Effect.after download (Sample.env Sample.twoEntries true)
                        Sample.start)) = [url]
  /\ Props.urlsRevoked
       (Effect.events
          (Effect.after download (Sample.env Sample.twoEntries true)
                        Sample.start)) = [url].
Proof.
  exact (@downloadTranscript_saves_and_releases TranscriptExtractor.new
           None None (Some (js " "))
           (Sample.env Sample.twoEntries true) Sample.start
           [ {| TranscriptExtractor.timestamp := js "00:00:01";
                TranscriptExtractor.content := js "Hello" |};
             {| TranscriptExtractor.timestamp := js "00:00:05";
                TranscriptExtractor.content := js "world" |} ]
           (DOM.Element (js "body") [] [Sample.twoEntriesBody])
           eq_refl ltac:(discriminate) eq_refl).
Defined.

(** X5: with at least one entry but no [document.body],
    [downloadTranscript] throws a [TypeError] at [document.body.appendChild]:
    by then the blob, its object URL and the anchor exist, nothing was
    clicked, and the object URL is never revoked. *)
Theorem downloadTranscript_without_body
  (this : TranscriptExtractor.t) (filename : option jsstring)
  (includeTimestamps : option bool) (separator : option jsstring)
  (env : Effect.Env) (w : Effect.World)
  (entries : list TranscriptExtractor.Entry) :
  Effect.result (TranscriptExtractor.extractTranscript this) env w
    = Effect.Normal entries ->
  entries <> [] ->
  DOM.body (Effect.document env) = None ->
  let text := TranscriptExtractor.renderEntries entries
                (Effect.withDefault false includeTimestamps)
                (Effect.withDefault [10; 10]%N separator) in
  let url := Effect.mintObjectURL env
               {| Effect.blobParts := [text];
                  Effect.blobType := js "text/plain" |} in
  let download := TranscriptExtractor.downloadTranscript this filename
                    includeTimestamps separator in
  (exists error,
     Effect.errorName error = js "TypeError"
     /\ download env w =
        (Effect.Throw error,
         Effect.addEvents w (Props.abortedSaveEvents text url)))
  /\ Props.urlsCreated (Effect.events (Effect.after download env w))
     = Props.urlsCreated (Effect.events w) ++ [url]
  /\ Props.urlsRevoked (Effect.events (Effect.after download env w))
     = Props.urlsRevoked (Effect.events w).
Proof.
  intros He Hne Hbody text url download.
  apply ExtractFacts.extractTranscript_result in He.
  assert (Hrun : download env w =
                 (Effect.Throw
                    (Effect.engineTypeError env Effect.JSNull
                                            (js "appendChild")),
                  Effect.addEvents w (Props.abortedSaveEvents text url))).
  { unfold download. rewrite SaveFacts.downloadTranscript_eq.
    rewrite MoreFacts.extracted_nonempty_no_diagnostic by (now rewrite <- He).
    rewrite <- He, Hbody. destruct entries; [congruence|reflexivity]. }
  split; [eexists; split; [|exact Hrun]; reflexivity|].
  unfold Effect.after. rewrite Hrun. cbn [snd Effect.addEvents Effect.events].
  rewrite SaveFacts.urlsCreated_app, SaveFacts.urlsRevoked_app. simpl.
  now rewrite app_nil_r.
Qed.

Lemma downloadTranscript_without_body_witness :
  let download := TranscriptExtractor.downloadTranscript TranscriptExtractor.new
                    None None None in
  let text := js "Hello" ++ [10; 10]%N ++ js "world" in
  let url := js "blob:https://learning.oreilly.com/1" in
  (exists error,
     Effect.errorName error = js "TypeError"
     /\ download (Sample.env MoreSamples.bodyless true) Sample.start =
        (Effect.Throw error,
         Effect.addEvents Sample.start (Props.abortedSaveEvents text url)))
  /\ Props.urlsCreated
       (Effect.events
          (Effect.after download (Sample.env MoreSamples.bodyless true)
                        Sample.start)) = [url]
  /\ Props.urlsRevoked
       (Effect.events
          (Effect.after download (Sample.env MoreSamples.bodyless true)
                        Sample.start)) = [].
Proof.
  exact (@downloadTranscript_without_body TranscriptExtractor.new
           None None None
           (Sample.env MoreSamples.bodyless true) Sample.start
           MoreSamples.helloWorld eq_refl ltac:(discriminate) eq_refl).
Defined.

(** X6: [copyToClipboard] and [downloadTranscript] render alike: called
    with the same [includeTimestamps] and [separator] (given or omitted) on
    a document with at least one entry, the text handed to the clipboard
    (one text where [navigator.clipboard] exists, none where it does not)
    is the text put into the blob. *)
Theorem copy_and_download_render_alike
  (this : TranscriptExtractor.t) (filename : option jsstring)
  (includeTimestamps : option bool) (separator : option jsstring)
  (env : Effect.Env) (w : Effect.World)
  (entries : list TranscriptExtractor.Entry) :
  Effect.result (TranscriptExtractor.extractTranscript this) env w
    = Effect.Normal entries ->
  entries <> [] ->
  exists text,
    Effect.clipboardRequests
      (Effect.events
         (Effect.after
            (TranscriptExtractor.copyToClipboard this includeTimestamps
               separator) env w))
    = Effect.clipboardRequests (Effect.events w)
      ++ match Effect.navigatorClipboard env with
         | Some _ => [text]
         | None => []
         end
    /\ In (Effect.NewBlob {| Effect.blobParts := [text];
                             Effect.blobType := js "text/plain" |})
          (Effect.events
             (Effect.after
                (TranscriptExtractor.downloadTranscript this filename
                   includeTimestamps separator) env w)).
Proof.
  intros He Hne. apply ExtractFacts.extractTranscript_result in He.
  destruct entries as [|e rest]; [congruence|]. symmetry in He.
  eexists. split.
  - exact (proj1 (@ExtractFacts.copyToClipboard_requests this
                    includeTimestamps separator env w e rest He)).
  - destruct (@DownloadFacts.downloadTranscript_blob this filename
                includeTimestamps separator env w e rest He) as (tail & Htail).
    refine (eq_ind_r (fun l => In _ l) _ Htail).
    rewrite !in_app_iff. right. right. now left.
Qed.

Lemma copy_and_download_render_alike_witness :
  exists text,
    Effect.clipboardRequests
      (Effect.events
         (Effect.after
            (TranscriptExtractor.copyToClipboard TranscriptExtractor.new
               (Some true) None)
            (Sample.env Sample.twoEntries false) Sample.start))
    = [text]
    /\ In (Effect.NewBlob {| Effect.blobParts := [text];
                             Effect.blobType := js "text/plain" |})
          (Effect.events
             (Effect.after
                (TranscriptExtractor.downloadTranscript TranscriptExtractor.new
                   None (Some true) None)
                (Sample.env Sample.twoEntries false) Sample.start)).
Proof.
  exact (@copy_and_download_render_alike TranscriptExtractor.new
           None (Some true) None
           (Sample.env Sample.twoEntries false) Sample.start
           MoreSamples.helloWorld eq_refl ltac:(discriminate)).
Defined.

(** X7: what [copyToClipboard(true, sep)] hands to the clipboard, on a
    document with at least one entry, is one line per entry, in order,
    each line the timestamp, a colon and a space, and the content, with
    [sep] between neighbouring lines and none at either end: that one
    text where [navigator.clipboard] exists, nothing where it does not. *)
Theorem copyToClipboard_with_timestamps
  (this : TranscriptExtractor.t) (sep : jsstring)
  (env : Effect.Env) (w : Effect.World)
  (entries : list TranscriptExtractor.Entry) :
  Effect.result (TranscriptExtractor.extractTranscript this) env w
    = Effect.Normal entries ->
  entries <> [] ->
  Effect.clipboardRequests
    (Effect.events
       (Effect.after
          (TranscriptExtractor.copyToClipboard this (Some true) (Some sep))
          env w))
  = Effect.clipboardRequests (Effect.events w)
    ++ match Effect.navigatorClipboard env with
       | Some _ =>
           [Spec.joined sep
              (map (fun e => TranscriptExtractor.timestamp e ++ [58; 32]%N
                             ++ TranscriptExtractor.content e) entries)]
       | None => []
       end.
Proof.
  intros He Hne. apply ExtractFacts.extractTranscript_result in He.
  destruct entries as [|e rest]; [congruence|]. symmetry in He.
  destruct (@ExtractFacts.copyToClipboard_requests this (Some true) (Some sep)
              env w e rest He) as [Hreq _].
  cbn [Effect.withDefault TranscriptExtractor.renderEntries] in Hreq.
  rewrite join_joined in Hreq. exact Hreq.
Qed.

Lemma copyToClipboard_with_timestamps_witness :
  Effect.clipboardRequests
    (Effect.events
       (Effect.after
          (TranscriptExtractor.copyToClipboard TranscriptExtractor.new
             (Some true) (Some (js " | ")))
          (Sample.env Sample.twoEntries true) Sample.start))
  = [js "00:00:01: Hello | 00:00:05: world"].
Proof.
  exact (@copyToClipboard_with_timestamps TranscriptExtractor.new (js " | ")
           (Sample.env Sample.twoEntries true) Sample.start
           MoreSamples.helloWorld eq_refl ltac:(discriminate)).
Defined.

Module SinkFacts.
Import DOM Effect TranscriptExtractor Spec Props.

Lemma missingDiagnostic_no_file_save (this : t) (d : Document) :
  existsb isFileSaveEvent (missingDiagnostic this d) = false.
Proof. unfold missingDiagnostic. now destruct (documentQuerySelector _ _). Qed.

End SinkFacts.

(** X8: [copyToClipboard] never saves a file: whatever the arguments, the
    document and the platform's answer, none of the events it adds is a
    blob, an object URL, an anchor or a click. *)
Theorem copyToClipboard_saves_no_file
  (this : TranscriptExtractor.t) (includeTimestamps : option bool)
  (separator : option jsstring) (env : Effect.Env) (w : Effect.World) :
  exists added,
    Effect.events
      (Effect.after
         (TranscriptExtractor.copyToClipboard this includeTimestamps separator)
         env w)
    = Effect.events w ++ added
    /\ existsb Effect.isFileSaveEvent added = false.
Proof.
  unfold Effect.after. rewrite ExtractFacts.copyToClipboard_eq.
  destruct (Spec.extracted this (Effect.document env)) as [|e rest].
  - eexists. split; [reflexivity|].
    now rewrite existsb_app, SinkFacts.missingDiagnostic_no_file_save.
  - destruct (Effect.navigatorClipboard env) as [answer|];
      [destruct (answer _)|]; eexists;
      (split; [reflexivity|]);
      now rewrite existsb_app, SinkFacts.missingDiagnostic_no_file_save.
Qed.

(** X9: [downloadTranscript] never touches the clipboard: whether it
    warns, saves or throws, the clipboard text is unchanged and no
    clipboard write is requested. *)
Theorem downloadTranscript_leaves_clipboard
  (this : TranscriptExtractor.t) (filename : option jsstring)
  (includeTimestamps : option bool) (separator : option jsstring)
  (env : Effect.Env) (w : Effect.World) :
  let w' := Effect.after
              (TranscriptExtractor.downloadTranscript this filename
                 includeTimestamps separator) env w in
  Effect.clipboard w' = Effect.clipboard w
  /\ Effect.clipboardRequests (Effect.events w')
     = Effect.clipboardRequests (Effect.events w).
Proof.
  cbv zeta. unfold Effect.after. rewrite SaveFacts.downloadTranscript_eq.
  destruct (Spec.extracted this (Effect.document env)) as [|e rest];
    [|destruct (DOM.body (Effect.document env))];
    cbn [snd Effect.addEvents Effect.events Effect.clipboard];
    (split; [reflexivity|]);
    rewrite !ExtractFacts.clipboardRequests_app,
            ExtractFacts.clipboardRequests_missingDiagnostic;
    simpl; now rewrite app_nil_r.
Qed.

(** X10: what [TranscriptUtils.quickCopy] hands to the clipboard, for a
    fresh extractor on a document with at least one entry, is exactly what
    [extractContentAsText()] returns with its default separator: that one
    text where [navigator.clipboard] exists, nothing where it does not.
    When the write is granted the clipboard holds that text and the result
    is [true]; when it fails the result is [false] and the clipboard is
    unchanged. *)
Theorem quickCopy_copies_default_text
  (env : Effect.Env) (w : Effect.World)
  (entries : list TranscriptExtractor.Entry) :
  Effect.result (TranscriptExtractor.extractTranscript TranscriptExtractor.new)
    env w = Effect.Normal entries ->
  entries <> [] ->
  exists text,
    Effect.result
      (TranscriptExtractor.extractContentAsText TranscriptExtractor.new None)
      env w = Effect.Normal text
    /\ Effect.clipboardRequests
         (Effect.events (Effect.after TranscriptUtils.quickCopy env w))
       = Effect.clipboardRequests (Effect.events w)
         ++ match Effect.navigatorClipboard env with
            | Some _ => [text]
            | None => []
            end
    /\ match Effect.clipboardAnswer env text with
       | None =>
           Effect.result TranscriptUtils.quickCopy env w = Effect.Normal true
           /\ Effect.clipboard (Effect.after TranscriptUtils.quickCopy env w)
              = Some text
       | Some _ =>
           Effect.result TranscriptUtils.quickCopy env w = Effect.Normal false
           /\ Effect.clipboard (Effect.after TranscriptUtils.quickCopy env w)
              = Effect.clipboard w
       end.
Proof.
  intros He Hne. apply ExtractFacts.extractTranscript_result in He.
  destruct entries as [|e rest]; [congruence|]. symmetry in He.
  destruct (@ExtractFacts.copyToClipboard_requests TranscriptExtractor.new
              (Some false) (Some (js " ")) env w e rest He) as [Hreq Hans].
  cbn [Effect.withDefault TranscriptExtractor.renderEntries] in Hreq, Hans.
  eexists. split; [|split; [exact Hreq|]].
  - unfold Effect.result.
    now rewrite ExtractFacts.extractContentAsText_eq, He.
  - cbn [Effect.withDefault]. unfold TranscriptUtils.quickCopy.
    destruct (Effect.clipboardAnswer env _); [|exact Hans].
    destruct Hans as (Hr & Hc & _). now split.
Qed.

Lemma quickCopy_copies_default_text_witness :
  Effect.clipboardRequests
    (Effect.events
       (Effect.after TranscriptUtils.quickCopy
                     (Sample.env Sample.twoEntries true) Sample.start))
  = [js "Hello world"]
  /\ Effect.clipboard
       (Effect.after TranscriptUtils.quickCopy
                     (Sample.env Sample.twoEntries true) Sample.start)
     = Some (js "Hello world").
Proof.
  destruct (@quickCopy_copies_default_text
              (Sample.env Sample.twoEntries true) Sample.start
              MoreSamples.helloWorld eq_refl ltac:(discriminate))
    as (text & Ht & Hreq & Hans).
  vm_compute in Ht. injection Ht as <-.
  split; [exact Hreq | exact (proj2 Hans)].
Defined.

(** X11: [TranscriptUtils.quickDownload], on a document with at least one
    entry and a body, saves one file named ['transcript.txt'] whose text
    is exactly what [extractContentAsText()] returns with its default
    separator. *)
Theorem quickDownload_saves_default_text
  (env : Effect.Env) (w : Effect.World)
  (entries : list TranscriptExtractor.Entry) (bodyElement : DOM.Node) :
  Effect.result (TranscriptExtractor.extractTranscript TranscriptExtractor.new)
    env w = Effect.Normal entries ->
  entries <> [] ->
  DOM.body (Effect.document env) = Some bodyElement ->
  exists text,
    Effect.result
      (TranscriptExtractor.extractContentAsText TranscriptExtractor.new None)
      env w = Effect.Normal text
    /\ TranscriptUtils.quickDownload env w =
       (Effect.Normal tt,
        Effect.addEvents w
          (Props.fileSaveEvents text
             (Effect.mintObjectURL env
                {| Effect.blobParts := [text];
                   Effect.blobType := js "text/plain" |})
             (js "transcript.txt") (length entries))).
Proof.
  intros He Hne Hbody. apply ExtractFacts.extractTranscript_result in He.
  unfold Effect.result, TranscriptUtils.quickDownload.
  rewrite ExtractFacts.extractContentAsText_eq, SaveFacts.downloadTranscript_eq.
  rewrite MoreFacts.extracted_nonempty_no_diagnostic by (now rewrite <- He).
  rewrite <- He, Hbody. destruct entries as [|e rest]; [congruence|].
  eexists. split; reflexivity.
Qed.

Lemma quickDownload_saves_default_text_witness :
  TranscriptUtils.quickDownload (Sample.env Sample.twoEntries true)
    Sample.start =
  (Effect.Normal tt,
   Effect.addEvents Sample.start
     (Props.fileSaveEvents (js "Hello world")
        (js "blob:https://learning.oreilly.com/1")
        (js "transcript.txt") 2)).
Proof.
  destruct (@quickDownload_saves_default_text
              (Sample.env Sample.twoEntries true) Sample.start
              MoreSamples.helloWorld
              (DOM.Element (js "body") [] [Sample.twoEntriesBody])
              eq_refl ltac:(discriminate) eq_refl)
    as (text & Ht & Hrun).
  vm_compute in Ht. injection Ht as <-. exact Hrun.
Defined.

Module WordFacts.
Import DOM Effect TranscriptExtractor Spec Props.

(** The words are the non-empty pieces of the split. *)
Lemma splitLoop_words (s : jsstring) :
  forall (m : bool) (p : jsstring),
    (m = true -> p = []) ->
    filter nonEmpty (JSString.splitLoop m p s) = wordsFrom p s.
Proof.
  induction s as [|c r IH]; intros m p Hm; simpl.
  - now destruct p.
  - destruct (JSString.isWhiteSpace c).
    + destruct m.
      * rewrite (Hm eq_refl). now apply IH.
      * simpl. rewrite (IH true []) by reflexivity. now destruct p.
    + apply IH. discriminate.
Qed.

Lemma split_words (s : jsstring) :
  filter nonEmpty (JSString.splitWhiteSpace s) = wordsOf s.
Proof.
  destruct s as [|c r]; [reflexivity|].
  unfold JSString.splitWhiteSpace, wordsOf. apply splitLoop_words. discriminate.
Qed.

Lemma words_at_most_pieces (s : jsstring) : length (wordsOf s) <= pieceCount s.
Proof. rewrite <- split_words. apply filter_length_le. Qed.

(** Words do not straddle a white-space code unit. *)
Lemma wordsFrom_app (a b : jsstring) (c : N) :
  JSString.isWhiteSpace c = true ->
  forall p, wordsFrom p (a ++ c :: b) = wordsFrom p a ++ wordsFrom [] b.
Proof.
  intros Hc. induction a as [|x a IH]; intros p; simpl.
  - rewrite Hc. now destruct p.
  - destruct (JSString.isWhiteSpace x); [|apply IH].
    destruct p; simpl; now rewrite IH.
Qed.

Lemma words_joined (l : list jsstring) :
  length (wordsOf (joined (js " ") l))
  = list_sum (map (fun s => length (wordsOf s)) l).
Proof.
  induction l as [|x rest IH]; [reflexivity|].
  simpl joined. destruct rest as [|y rest'].
  - simpl. lia.
  - unfold wordsOf at 1. change (x ++ js " " ++ joined (js " ") (y :: rest'))
      with (x ++ 32%N :: joined (js " ") (y :: rest')).
    rewrite wordsFrom_app by reflexivity.
    rewrite length_app. fold (wordsOf x).
    fold (wordsOf (joined (js " ") (y :: rest'))). rewrite IH.
    reflexivity.
Qed.

Lemma endsClean_tail (c : N) (r : jsstring) :
  r <> [] -> endsClean (c :: r) -> endsClean r.
Proof.
  unfold endsClean. simpl. intros Hr.
  destruct (rev r) as [|x t] eqn:E; [|trivial].
  apply (f_equal (@rev _)) in E. rewrite rev_involutive in E. now subst.
Qed.

Lemma endsClean_single (c : N) :
  endsClean [c] -> JSString.isWhiteSpace c = false.
Proof. trivial. Qed.

Lemma endsClean_app (a b : jsstring) :
  b <> [] -> endsClean b -> endsClean (a ++ b).
Proof.
  unfold endsClean. rewrite rev_app_distr. intros Hb.
  destruct (rev b) as [|x t] eqn:E; [|trivial].
  apply (f_equal (@rev _)) in E. rewrite rev_involutive in E. now subst.
Qed.

(** A string that ends clean splits into non-empty pieces as soon as its
    first piece is non-empty. *)
Lemma splitLoop_pieces_nonempty (s : jsstring) :
  forall (m : bool) (p : jsstring),
    s <> [] -> endsClean s ->
    (m = true \/ p <> [] \/ startsClean s) ->
    forallb nonEmpty (JSString.splitLoop m p s) = true.
Proof.
  induction s as [|c r IH]; intros m p Hs He Hinv; [congruence|].
  destruct r as [|c' r'].
  - apply endsClean_single in He. simpl. rewrite He. simpl.
    now destruct p.
  - assert (Hr : endsClean (c' :: r'))
      by (apply (@endsClean_tail c); [discriminate | exact He]).
    assert (Hne : c' :: r' <> []) by discriminate.
    remember (c' :: r') as r eqn:Er. clear Er.
    cbn [JSString.splitLoop].
    destruct (JSString.isWhiteSpace c) eqn:W.
    + destruct m.
      * apply IH; [exact Hne | exact Hr | now left].
      * cbn [forallb].
        destruct Hinv as [Hm | [Hp | Hsc]];
          [discriminate | | simpl in Hsc; congruence].
        rewrite (IH true []); [|exact Hne | exact Hr | now left].
        now destruct p.
    + apply IH; [exact Hne | exact Hr |].
      right. left. now destruct p.
Qed.

Lemma filter_all {A} (f : A -> bool) (l : list A) :
  forallb f l = true -> filter f l = l.
Proof.
  induction l as [|x l IH]; simpl; [reflexivity|].
  intros H. apply andb_true_iff in H as [Hx Hl]. rewrite Hx. now f_equal; auto.
Qed.

Lemma split_trimmed (s : jsstring) :
  s <> [] -> trimmed s -> JSString.splitWhiteSpace s = wordsOf s.
Proof.
  intros Hs [Hstart Hend]. rewrite <- split_words. symmetry.
  apply filter_all. destruct s as [|c r]; [congruence|].
  apply splitLoop_pieces_nonempty; auto.
Qed.

(** Joining non-empty trimmed strings with a space gives a non-empty
    trimmed string. *)
Lemma joined_trimmed (l : list jsstring) :
  l <> [] ->
  Forall (fun s => s <> [] /\ trimmed s) l ->
  joined (js " ") l <> [] /\ trimmed (joined (js " ") l).
Proof.
  induction l as [|x rest IH]; [congruence|]. intros _ HF.
  inversion HF as [|? ? [Hx [Hxs Hxe]] Hrest]; subst.
  simpl joined. destruct rest as [|y rest'].
  - repeat split; assumption.
  - destruct IH as (Hne & Hs & He); [discriminate | exact Hrest |].
    destruct x as [|c x']; [congruence|].
    split; [discriminate|]. split.
    + exact Hxs.
    + apply (@endsClean_app (c :: x')); [discriminate|].
      exact (@endsClean_app [32%N] (joined (js " ") (y :: rest')) Hne He).
Qed.

End WordFacts.

(** X12: [totalWords] never under-counts: on every document it is at
    least the number of words of the entries' contents, a word being a
    maximal run of code units that are not white space. *)
Theorem getSummary_words_lower_bound
  (this : TranscriptExtractor.t) (env : Effect.Env) (w : Effect.World) :
  exists entries s,
    Effect.result (TranscriptExtractor.extractTranscript this) env w
    = Effect.Normal entries
    /\ Effect.result (TranscriptExtractor.getSummary this) env w
       = Effect.Normal s
    /\ list_sum (map (fun e => length (Props.wordsOf
                                         (TranscriptExtractor.content e)))
                     entries)
       <= TranscriptExtractor.totalWords s.
Proof.
  destruct (MoreFacts.getSummary_value this env w) as (s & Hs & _ & _ & Hw).
  exists (Spec.extracted this (Effect.document env)), s.
  split; [|split; [exact Hs|]].
  - unfold Effect.result. now rewrite ExtractFacts.extractTranscript_eq.
  - rewrite Hw, join_joined.
    rewrite <- (map_map TranscriptExtractor.content
                        (fun c => length (Props.wordsOf c))).
    rewrite <- WordFacts.words_joined. apply WordFacts.words_at_most_pieces.
Qed.

(** X13: when there is at least one entry and no entry has empty content,
    [totalWords] is exactly the number of words of the transcript: the sum,
    over the entries, of the words of each content. *)
Theorem getSummary_words_exact
  (this : TranscriptExtractor.t) (env : Effect.Env) (w : Effect.World)
  (entries : list TranscriptExtractor.Entry) :
  Effect.result (TranscriptExtractor.extractTranscript this) env w
    = Effect.Normal entries ->
  entries <> [] ->
  Forall (fun e => TranscriptExtractor.content e <> []) entries ->
  exists s,
    Effect.result (TranscriptExtractor.getSummary this) env w
    = Effect.Normal s
    /\ TranscriptExtractor.totalWords s
       = list_sum (map (fun e => length (Props.wordsOf
                                           (TranscriptExtractor.content e)))
                       entries).
Proof.
  intros He Hne Hall. apply ExtractFacts.extractTranscript_result in He.
  destruct (MoreFacts.getSummary_value this env w) as (s & Hs & _ & _ & Hw).
  exists s. split; [exact Hs|].
  rewrite Hw, join_joined, <- He. unfold Props.pieceCount.
  assert (Hclean : Forall (fun c => c <> [] /\ Props.trimmed c)
                          (map TranscriptExtractor.content entries)).
  { assert (Ht := MoreFacts.extracted_trimmed this (Effect.document env)).
    rewrite <- He in Ht. rewrite Forall_forall in *.
    intros c Hc. apply in_map_iff in Hc as (e & <- & Hin).
    split; [now apply Hall | now apply Ht]. }
  destruct (WordFacts.joined_trimmed
              (l := map TranscriptExtractor.content entries)) as [Hj Htrim];
    [now destruct entries | exact Hclean |].
  rewrite WordFacts.split_trimmed by assumption.
  rewrite WordFacts.words_joined. now rewrite map_map.
Qed.

Lemma getSummary_words_exact_witness :
  exists s,
    Effect.result (TranscriptExtractor.getSummary TranscriptExtractor.new)
      (Sample.env MoreSamples.sentences true) Sample.start = Effect.Normal s
    /\ TranscriptExtractor.totalWords s = 3 + 2.
Proof.
  exact (@getSummary_words_exact TranscriptExtractor.new
           (Sample.env MoreSamples.sentences true) Sample.start
           MoreSamples.sentenceEntries eq_refl ltac:(discriminate)
           ltac:(repeat constructor; discriminate)).
Defined.

Module TreeFacts.
Import DOM Effect TranscriptExtractor Spec Props.

(** A descendant of a descendant is a descendant. *)
Lemma descendants_trans (n : Node) :
  forall d x, In d (descendants n) -> In x (descendants d) ->
              In x (descendants n).
Proof.
  induction n as [name attrs cs IH | data | data] using Node_tree_ind;
    intros d x Hd Hx; try contradiction.
  simpl in *. apply in_flat_map in Hd as (c & Hc & Hd).
  apply in_flat_map. exists c. split; [exact Hc|].
  destruct (isElement c); [|contradiction].
  right. destruct Hd as [-> | Hd]; [exact Hx|].
  rewrite Forall_forall in IH. exact (IH c Hc d x Hd Hx).
Qed.

Lemma existsb_incl {A} (f : A -> bool) (l l' : list A) :
  (forall x, In x l -> In x l') -> existsb f l = true -> existsb f l' = true.
Proof.
  intros Hincl H. apply existsb_exists in H as (x & Hx & Hf).
  apply existsb_exists. exists x. auto.
Qed.

Lemma hasMarked_up (cls : jsstring) (outer inner : Node) :
  In inner (descendants outer) ->
  hasMarked cls inner = true -> hasMarked cls outer = true.
Proof.
  intros Hin. unfold hasMarked. apply existsb_incl.
  intros x Hx. exact (descendants_trans outer inner x Hin Hx).
Qed.

Lemma nodeSize_child (c : Node) (cs : list Node) :
  In c cs -> nodeSize c <= list_sum (map nodeSize cs).
Proof.
  induction cs as [|x cs IH]; simpl; [contradiction|].
  intros [-> | H]; [lia | specialize (IH H); lia].
Qed.

(** A descendant is strictly smaller than its ancestor, hence another
    node. *)
Lemma descendants_smaller (n : Node) :
  forall d, In d (descendants n) -> nodeSize d < nodeSize n.
Proof.
  induction n as [name attrs cs IH | data | data] using Node_tree_ind;
    intros d Hd; try contradiction.
  simpl in *. apply in_flat_map in Hd as (c & Hc & Hd).
  assert (Hsz := nodeSize_child c cs Hc).
  destruct (isElement c); [|contradiction].
  destruct Hd as [-> | Hd]; [lia|].
  rewrite Forall_forall in IH. specialize (IH c Hc d Hd). lia.
Qed.

Lemma two_members {A} (a b : A) (l : list A) :
  In a l -> In b l -> a <> b -> 2 <= length l.
Proof.
  intros Ha Hb Hab. apply in_split in Ha as (l1 & l2 & ->).
  rewrite length_app. simpl.
  apply in_app_or in Hb as [Hb | [Hb | Hb]]; [|congruence|];
    (destruct l1, l2; simpl in *; try contradiction; lia).
Qed.

End TreeFacts.

(** X14: candidates nest.  A button inside a candidate of the container is
    itself a candidate, listed on its own, and when the inner button is
    well-formed so is the outer one: a well-formed button nested in
    another button yields two entries, one for each. *)
Theorem nested_candidates_both_count
  (this : TranscriptExtractor.t) (env : Effect.Env) (w : Effect.World)
  (container outer inner : DOM.Node) :
  DOM.documentQuerySelector (Effect.document env)
    (TranscriptExtractor.transcriptBodySelector this) = Some container ->
  In outer (Spec.candidates container) ->
  In inner (DOM.descendants outer) ->
  DOM.matches [DOM.TypeSel (js "button")] inner = true ->
  Spec.wellFormed this inner = true ->
  In inner (Spec.candidates container)
  /\ Spec.wellFormed this outer = true
  /\ exists entries,
       Effect.result (TranscriptExtractor.extractTranscript this) env w
       = Effect.Normal entries
       /\ 2 <= length entries.
Proof.
  intros Hc Houter Hinner Hbutton Hwf.
  assert (Hic : In inner (Spec.candidates container)).
  { unfold Spec.candidates, DOM.querySelectorAll in *.
    apply filter_In in Houter as [Hod Hob].
    apply filter_In. split; [|exact Hbutton].
    exact (TreeFacts.descendants_trans container outer inner Hod Hinner). }
  assert (Hwo : Spec.wellFormed this outer = true).
  { unfold Spec.wellFormed in *. apply andb_true_iff in Hwf as [Ht Hct].
    apply andb_true_iff. split; eapply TreeFacts.hasMarked_up; eauto. }
  split; [exact Hic|]. split; [exact Hwo|].
  eexists. split.
  - unfold Effect.result.
    now rewrite ExtractFacts.extractTranscript_run, Hc.
  - rewrite ExtractFacts.forEach_visitButton. simpl.
    rewrite <- (Forall2_length
                  (ExtractFacts.entries_of_candidates this
                     (Spec.candidates container))).
    apply (@TreeFacts.two_members _ outer inner).
    + apply filter_In. now split.
    + apply filter_In. now split.
    + intros ->. apply TreeFacts.descendants_smaller in Hinner. lia.
Qed.

Lemma nested_candidates_both_count_witness :
  In MoreSamples.innerButton
     (Spec.candidates (Sample.transcriptBody [MoreSamples.outerButton]))
  /\ Spec.wellFormed TranscriptExtractor.new MoreSamples.outerButton = true
  /\ exists entries,
       Effect.result
         (TranscriptExtractor.extractTranscript TranscriptExtractor.new)
         (Sample.env MoreSamples.nested true) Sample.start
       = Effect.Normal entries
       /\ 2 <= length entries.
Proof.
  apply (@nested_candidates_both_count TranscriptExtractor.new
           (Sample.env MoreSamples.nested true) Sample.start
           (Sample.transcriptBody [MoreSamples.outerButton])
           MoreSamples.outerButton MoreSamples.innerButton).
  - reflexivity.
  - vm_compute. now left.
  - vm_compute. right. now left.
  - reflexivity.
  - reflexivity.
Defined.


(* ================================================================= *)
(** ** The popup *)

Module PopupFacts.
Import DOM Effect TranscriptExtractor Popup PopupHandlers.

(** [executeScript] rejects or resolves to one result; it changes the
    page's world at most. *)
Lemma executeScript_cases {A} (f : JS A) (env : Popup.Env) (w : World)
      (id : nat) :
  exists pw,
    (exists e, executeScript id f env w = (Throw e, withPage w pw))
    \/ (exists r, executeScript id f env w
                  = (Normal [ {| result := r |} ], withPage w pw)).
Proof.
  unfold executeScript. destruct (injection env id) as [e|].
  - exists (pageWorld w). left. exists e. now destruct w.
  - destruct ((if contentScriptLoaded env then f else Effect.throw referenceError)
                (page env id) (pageWorld w)) as [[v|e] pw].
    + exists pw. right. now exists (Some v).
    + exists pw. destruct (pageThrown env e) as [e'|].
      * left. now exists e'.
      * right. now exists None.
Qed.

Ltac run_click :=
  unfold Popup.completion, Popup.after,
    extractClick, copyClick, downloadClick, summaryClick,
    Popup.tryCatch, Popup.bind, tabsQuery.

Ltac run_script :=
  match goal with
  | |- context [executeScript ?i ?f ?env ?w] =>
      let pw := fresh "pw" in
      let e := fresh "e" in
      let r := fresh "r" in
      let H := fresh "H" in
      destruct (executeScript_cases f env w i) as (pw & [[e H] | [r H]]);
      rewrite H; clear H
  end.

(** What [executeScript] gives when the tab is injectable and the
    extractor is loaded and the function completes. *)
Lemma executeScript_normal {A} (f : JS A) (env : Popup.Env) (w : World)
      (id : nat) (v : A) (pw : Effect.World) :
  injection env id = None ->
  contentScriptLoaded env = true ->
  f (page env id) (pageWorld w) = (Normal v, pw) ->
  executeScript id f env w = (Normal [ {| result := Some v |} ], withPage w pw).
Proof.
  intros Hi Hl Hf. unfold executeScript. now rewrite Hi, Hl, Hf.
Qed.

End PopupFacts.

(** X15: a click never throws and reports exactly once: each of the four
    handlers completes normally, whatever the browser and the page do, and
    leaves the status element as one call of [showStatus] sets it, with
    one more timer pending. *)
Theorem click_shows_one_status
  (handler : Popup.P unit) (prefix : jsstring)
  (env : Popup.Env) (w : Popup.World) :
  In (handler, prefix) PopupSamples.handlers ->
  exists message isError,
    Popup.completion handler env w = Effect.Normal tt
    /\ Popup.statusDiv (Popup.after handler env w)
       = Popup.shown message isError
    /\ Popup.timers (Popup.after handler env w) = Popup.timers w ++ [3000].
Proof.
  intros [H | [H | [H | [H | []]]]]; injection H as <- <-;
    PopupFacts.run_click;
    (destruct (Popup.queriedTabs env) as [[|tab others]|e];
     cbn [Popup.firstTabId Popup.ret Popup.throw Popup.throwTypeError];
     [ | PopupFacts.run_script | ]);
    simpl; eauto;
    repeat match goal with
           | r : option _ |- _ => destruct r; simpl
           | b : bool |- _ => destruct b; simpl
           | |- context [if Nat.ltb 0 ?n then _ else _] =>
               destruct (Nat.ltb 0 n); simpl
           end; eauto.
Qed.

Lemma click_shows_one_status_witness :
  exists message isError,
    Popup.completion PopupHandlers.copyClick
      (PopupSamples.env Sample.twoEntries false) PopupSamples.start
    = Effect.Normal tt
    /\ Popup.statusDiv
         (Popup.after PopupHandlers.copyClick
            (PopupSamples.env Sample.twoEntries false) PopupSamples.start)
       = Popup.shown message isError
    /\ Popup.timers
         (Popup.after PopupHandlers.copyClick
            (PopupSamples.env Sample.twoEntries false) PopupSamples.start)
       = [3000].
Proof.
  exact (@click_shows_one_status PopupHandlers.copyClick
           (js "Error copying content: ")
           (PopupSamples.env Sample.twoEntries false) PopupSamples.start
           (or_intror (or_introl eq_refl))).
Defined.

(** X16: without an active tab every handler reports an error and leaves
    the page alone: the status is the handler's error prefix followed by
    the message of a [TypeError], shown as an error, nothing is logged and
    the page's world is unchanged. *)
Theorem click_without_tab
  (handler : Popup.P unit) (prefix : jsstring)
  (env : Popup.Env) (w : Popup.World) :
  In (handler, prefix) PopupSamples.handlers ->
  Popup.queriedTabs env = Effect.Normal [] ->
  exists error,
    Effect.errorName error = js "TypeError"
    /\ handler env w
       = (Effect.Normal tt,
          Popup.statusShown w (prefix ++ Effect.errorMessage error) true).
Proof.
  intros Hin Hq.
  exists (Effect.typeError
            (Popup.typeErrorMessage env Effect.JSUndefined (js "id"))).
  split; [reflexivity|].
  destruct Hin as [H | [H | [H | [H | []]]]]; injection H as <- <-;
    PopupFacts.run_click; rewrite Hq; reflexivity.
Qed.

Lemma click_without_tab_witness :
  exists error,
    Effect.errorName error = js "TypeError"
    /\ PopupHandlers.downloadClick PopupSamples.noTab PopupSamples.start
       = (Effect.Normal tt,
          Popup.statusShown PopupSamples.start
            (js "Error downloading transcript: " ++ Effect.errorMessage error)
            true).
Proof.
  exact (@click_without_tab PopupHandlers.downloadClick
           (js "Error downloading transcript: ")
           PopupSamples.noTab PopupSamples.start
           (or_intror (or_intror (or_introl eq_refl))) eq_refl).
Defined.

(** X17: a status shown while the timer of an earlier status is pending
    is hidden by that earlier timer: when the oldest timer fires, the new
    message is on display no more, though its own timer of 3000 ms is
    still pending. *)
Theorem status_hidden_by_earlier_timer
  (env : Popup.Env) (w : Popup.World) (message : jsstring)
  (isError : option bool) (earlier : nat) (pending : list nat) :
  Popup.timers w = earlier :: pending ->
  let w1 := Popup.after (Popup.showStatus message isError) env w in
  Popup.statusDiv w1
  = Popup.shown message (Effect.withDefault false isError)
  /\ Popup.textContent (Popup.statusDiv (Popup.fireTimer w1)) = message
  /\ Popup.display (Popup.statusDiv (Popup.fireTimer w1)) = js "none"
  /\ Popup.timers (Popup.fireTimer w1) = pending ++ [3000].
Proof.
  intros Ht w1. unfold w1, Popup.after, Popup.showStatus, Popup.fireTimer.
  simpl. rewrite Ht. simpl. auto.
Qed.

Lemma status_hidden_by_earlier_timer_witness :
  let w1 := Popup.after
              (Popup.showStatus (js "No transcript found on this page")
                                (Some true))
              PopupSamples.noTab PopupSamples.afterFirstStatus in
  Popup.statusDiv w1 = Popup.shown (js "No transcript found on this page") true
  /\ Popup.textContent (Popup.statusDiv (Popup.fireTimer w1))
     = js "No transcript found on this page"
  /\ Popup.display (Popup.statusDiv (Popup.fireTimer w1)) = js "none"
  /\ Popup.timers (Popup.fireTimer w1) = [3000].
Proof.
  exact (@status_hidden_by_earlier_timer PopupSamples.noTab
           PopupSamples.afterFirstStatus
           (js "No transcript found on this page") (Some true) 3000 []
           eq_refl).
Defined.

(** X18: the extract button reports what the page's extraction returned.
    With an active tab that can be injected and has the extractor loaded,
    the status reads ["Extracted N transcript entries"], as a success, and
    the entries are logged, when [extractTranscript] returned N > 0
    entries; with no entries it reads ["No transcript found on this
    page"], as an error, and nothing is logged. *)
Theorem extractClick_reports_extraction
  (env : Popup.Env) (w : Popup.World) (tab : Popup.Tab)
  (others : list Popup.Tab) (entries : list TranscriptExtractor.Entry) :
  Popup.queriedTabs env = Effect.Normal (tab :: others) ->
  Popup.injection env (Popup.tabId tab) = None ->
  Popup.contentScriptLoaded env = true ->
  Effect.result (TranscriptExtractor.extractTranscript TranscriptExtractor.new)
    (Popup.page env (Popup.tabId tab)) (Popup.pageWorld w)
  = Effect.Normal entries ->
  let w' := Popup.after PopupHandlers.extractClick env w in
  Popup.completion PopupHandlers.extractClick env w = Effect.Normal tt
  /\ Popup.pageWorld w'
     = Effect.after
         (TranscriptExtractor.extractTranscript TranscriptExtractor.new)
         (Popup.page env (Popup.tabId tab)) (Popup.pageWorld w)
  /\ match entries with
     | [] =>
         Popup.statusDiv w'
         = Popup.shown (js "No transcript found on this page") true
         /\ Popup.console w' = Popup.console w
     | _ :: _ =>
         Popup.statusDiv w'
         = Popup.shown (js "Extracted " ++ JSString.ofNat (length entries)
                        ++ js " transcript entries") false
         /\ Popup.console w'
            = Popup.console w
              ++ [Popup.LoggedEntries (js "Transcript entries:") entries]
     end.
Proof.
  intros Hq Hi Hl He w'. unfold w'. clear w'.
  apply ExtractFacts.extractTranscript_result in He.
  PopupFacts.run_click. rewrite Hq.
  cbn [Popup.firstTabId Popup.ret].
  rewrite (@PopupFacts.executeScript_normal _ _ env w (Popup.tabId tab) entries
             (Effect.after
                (TranscriptExtractor.extractTranscript TranscriptExtractor.new)
                (Popup.page env (Popup.tabId tab)) (Popup.pageWorld w)) Hi Hl).
  - cbn [Popup.firstResult Popup.property Popup.result Popup.ret].
    destruct entries; simpl; auto.
  - unfold Effect.after. rewrite ExtractFacts.extractTranscript_eq.
    now rewrite He.
Qed.

Lemma extractClick_reports_extraction_witness :
  let w' := Popup.after PopupHandlers.extractClick
              (PopupSamples.env Sample.twoEntries true) PopupSamples.start in
  Popup.statusDiv w'
  = Popup.shown (js "Extracted 2 transcript entries") false
  /\ Popup.console w'
     = [Popup.LoggedEntries (js "Transcript entries:") MoreSamples.helloWorld].
Proof.
  exact (proj2 (proj2
    (@extractClick_reports_extraction
       (PopupSamples.env Sample.twoEntries true) PopupSamples.start
       {| Popup.tabId := 7 |} [] MoreSamples.helloWorld
       eq_refl eq_refl eq_refl eq_refl))).
Defined.

(** X19: the download button reports success although nothing was saved.
    With an active tab that can be injected and has the extractor loaded,
    on a page without entries, the status reads ["Transcript
    downloaded!"], as a success, while the page only gained warnings: no
    blob, no object URL, no anchor, no click. *)
Theorem downloadClick_reports_success_without_file
  (env : Popup.Env) (w : Popup.World) (tab : Popup.Tab)
  (others : list Popup.Tab) :
  Popup.queriedTabs env = Effect.Normal (tab :: others) ->
  Popup.injection env (Popup.tabId tab) = None ->
  Popup.contentScriptLoaded env = true ->
  Effect.result (TranscriptExtractor.extractTranscript TranscriptExtractor.new)
    (Popup.page env (Popup.tabId tab)) (Popup.pageWorld w)
  = Effect.Normal [] ->
  exists diag,
    PopupHandlers.downloadClick env w
    = (Effect.Normal tt,
       Popup.statusShown
         (Popup.withPage w (Effect.addEvents (Popup.pageWorld w) diag))
         (js "Transcript downloaded!") false)
    /\ Forall Spec.isDiagnostic diag
    /\ existsb Effect.isFileSaveEvent diag = false.
Proof.
  intros Hq Hi Hl He.
  apply ExtractFacts.extractTranscript_result in He. symmetry in He.
  eexists. split.
  - PopupFacts.run_click. rewrite Hq.
    cbn [Popup.firstTabId Popup.ret].
    erewrite PopupFacts.executeScript_normal; [reflexivity | exact Hi | exact Hl |].
    now apply DownloadFacts.downloadTranscript_empty.
  - assert (Hwarn : forall m, Spec.isDiagnostic (Effect.ConsoleWarn m))
      by (intros m; now exists m).
    destruct (ExtractFacts.missingDiagnostic_cases TranscriptExtractor.new
                (Effect.document (Popup.page env (Popup.tabId tab))))
      as [-> | [-> _]]; simpl; split; auto using Forall_cons, Forall_nil.
Qed.

Lemma downloadClick_reports_success_without_file_witness :
  exists diag,
    PopupHandlers.downloadClick (PopupSamples.env Sample.noContainer true)
      PopupSamples.start
    = (Effect.Normal tt,
       Popup.statusShown
         (Popup.withPage PopupSamples.start
            (Effect.addEvents Sample.start diag))
         (js "Transcript downloaded!") false)
    /\ Forall Spec.isDiagnostic diag
    /\ existsb Effect.isFileSaveEvent diag = false.
Proof.
  exact (@downloadClick_reports_success_without_file
           (PopupSamples.env Sample.noContainer true) PopupSamples.start
           {| Popup.tabId := 7 |} [] eq_refl eq_refl eq_refl eq_refl).
Defined.

(** X20: the copy button reports success exactly when the page had entries
    and the clipboard write was granted; the clipboard then holds the
    contents joined with one space.  With no entries, or with the write
    refused, the status reads ["Failed to copy content"], as an error, for
    both alike, and the clipboard is unchanged. *)
Theorem copyClick_reports_clipboard
  (env : Popup.Env) (w : Popup.World) (tab : Popup.Tab)
  (others : list Popup.Tab) (entries : list TranscriptExtractor.Entry) :
  Popup.queriedTabs env = Effect.Normal (tab :: others) ->
  Popup.injection env (Popup.tabId tab) = None ->
  Popup.contentScriptLoaded env = true ->
  Effect.result (TranscriptExtractor.extractTranscript TranscriptExtractor.new)
    (Popup.page env (Popup.tabId tab)) (Popup.pageWorld w)
  = Effect.Normal entries ->
  let w' := Popup.after PopupHandlers.copyClick env w in
  let text := Spec.joined [32%N] (map TranscriptExtractor.content entries) in
  let granted :=
    match entries,
          Effect.clipboardAnswer (Popup.page env (Popup.tabId tab)) text with
    | _ :: _, None => true
    | _, _ => false
    end in
  Popup.completion PopupHandlers.copyClick env w = Effect.Normal tt
  /\ Popup.statusDiv w'
     = (if granted then Popup.shown (js "Content copied to clipboard!") false
        else Popup.shown (js "Failed to copy content") true)
  /\ Effect.clipboard (Popup.pageWorld w')
     = (if granted then Some text else Effect.clipboard (Popup.pageWorld w)).
Proof.
  intros Hq Hi Hl He w' text granted. unfold w'. clear w'.
  apply ExtractFacts.extractTranscript_result in He. symmetry in He.
  PopupFacts.run_click. rewrite Hq.
  cbn [Popup.firstTabId Popup.ret].
  unfold Popup.executeScript. rewrite Hi, Hl.
  rewrite ExtractFacts.copyToClipboard_eq, He.
  cbn [Effect.withDefault TranscriptExtractor.renderEntries].
  rewrite join_joined. change (js " ") with [32%N]. fold text.
  unfold granted, Effect.clipboardAnswer. clearbody text.
  destruct entries as [|e rest];
    [|destruct (Effect.navigatorClipboard (Popup.page env (Popup.tabId tab)))
        as [answer|]; [destruct (answer text)|]];
    simpl; auto.
Qed.

Lemma copyClick_reports_clipboard_witness :
  let w' := Popup.after PopupHandlers.copyClick
              (PopupSamples.env Sample.twoEntries true) PopupSamples.start in
  Popup.completion PopupHandlers.copyClick
    (PopupSamples.env Sample.twoEntries true) PopupSamples.start
  = Effect.Normal tt
  /\ Popup.statusDiv w' = Popup.shown (js "Content copied to clipboard!") false
  /\ Effect.clipboard (Popup.pageWorld w') = Some (js "Hello world").
Proof.
  exact (@copyClick_reports_clipboard
           (PopupSamples.env Sample.twoEntries true) PopupSamples.start
           {| Popup.tabId := 7 |} [] MoreSamples.helloWorld
           eq_refl eq_refl eq_refl eq_refl).
Defined.

(** X21: the summary button reports the page's counts.  With an active tab
    that can be injected and has the extractor loaded, the status reads
    ["Summary: N entries, W words"], as a success, with N and W the
    [totalEntries] and [totalWords] of [getSummary] on the page, and the
    summary is logged; W is never 0, and on a page without entries the
    status reads ["Summary: 0 entries, 1 words"]. *)
Theorem summaryClick_reports_counts
  (env : Popup.Env) (w : Popup.World) (tab : Popup.Tab)
  (others : list Popup.Tab) (entries : list TranscriptExtractor.Entry) :
  Popup.queriedTabs env = Effect.Normal (tab :: others) ->
  Popup.injection env (Popup.tabId tab) = None ->
  Popup.contentScriptLoaded env = true ->
  Effect.result (TranscriptExtractor.extractTranscript TranscriptExtractor.new)
    (Popup.page env (Popup.tabId tab)) (Popup.pageWorld w)
  = Effect.Normal entries ->
  let w' := Popup.after PopupHandlers.summaryClick env w in
  exists summary,
    Effect.result (TranscriptExtractor.getSummary TranscriptExtractor.new)
      (Popup.page env (Popup.tabId tab)) (Popup.pageWorld w)
    = Effect.Normal summary
    /\ Popup.statusDiv w'
       = Popup.shown
           (js "Summary: "
            ++ JSString.ofNat (TranscriptExtractor.totalEntries summary)
            ++ js " entries, "
            ++ JSString.ofNat (TranscriptExtractor.totalWords summary)
            ++ js " words") false
    /\ Popup.console w'
       = Popup.console w
         ++ [Popup.LoggedSummary (js "Transcript summary:") summary]
    /\ TranscriptExtractor.totalEntries summary = length entries
    /\ 1 <= TranscriptExtractor.totalWords summary
    /\ match entries with
       | [] => Popup.textContent (Popup.statusDiv w')
               = js "Summary: 0 entries, 1 words"
       | _ :: _ => True
       end.
Proof.
  intros Hq Hi Hl He w'. unfold w'. clear w'.
  apply ExtractFacts.extractTranscript_result in He.
  destruct (MoreFacts.getSummary_value TranscriptExtractor.new
              (Popup.page env (Popup.tabId tab)) (Popup.pageWorld w))
    as (s & Hs & Hn & _ & Hw).
  exists s. split; [exact Hs|].
  assert (Hrun : Popup.after PopupHandlers.summaryClick env w =
                 {| Popup.statusDiv :=
                      Popup.shown
                        (js "Summary: "
                         ++ JSString.ofNat (TranscriptExtractor.totalEntries s)
                         ++ js " entries, "
                         ++ JSString.ofNat (TranscriptExtractor.totalWords s)
                         ++ js " words") false;
                    Popup.timers := Popup.timers w ++ [3000];
                    Popup.console :=
                      Popup.console w
                      ++ [Popup.LoggedSummary (js "Transcript summary:") s];
                    Popup.pageWorld :=
                      Effect.after
                        (TranscriptExtractor.getSummary TranscriptExtractor.new)
                        (Popup.page env (Popup.tabId tab))
                        (Popup.pageWorld w) |}).
  { PopupFacts.run_click. rewrite Hq.
    cbn [Popup.firstTabId Popup.ret].
    unfold Effect.result in Hs. unfold Effect.after.
    destruct (TranscriptExtractor.getSummary TranscriptExtractor.new
                (Popup.page env (Popup.tabId tab)) (Popup.pageWorld w))
      as [c pw] eqn:Hg.
    simpl in Hs. subst c.
    erewrite PopupFacts.executeScript_normal;
      [reflexivity | exact Hi | exact Hl | exact Hg]. }
  rewrite Hrun. cbn [Popup.statusDiv Popup.console].
  split; [reflexivity|]. split; [reflexivity|].
  split; [now rewrite Hn, He|].
  split; [rewrite Hw; apply MoreFacts.pieceCount_positive|].
  destruct entries as [|e rest]; [|trivial].
  assert (Hz := @SummaryFacts.getSummary_empty TranscriptExtractor.new
                  (Popup.page env (Popup.tabId tab)) (Popup.pageWorld w)
                  (eq_sym He)).
  rewrite Hz in Hs. injection Hs as <-. reflexivity.
Qed.

Lemma summaryClick_reports_counts_witness :
  Popup.textContent
    (Popup.statusDiv
       (Popup.after PopupHandlers.summaryClick
          (PopupSamples.env Sample.emptyContainer true) PopupSamples.start))
  = js "Summary: 0 entries, 1 words".
Proof.
  destruct (@summaryClick_reports_counts
              (PopupSamples.env Sample.emptyContainer true) PopupSamples.start
              {| Popup.tabId := 7 |} [] [] eq_refl eq_refl eq_refl eq_refl)
    as (summary & _ & _ & _ & _ & _ & Hzero).
  exact Hzero.
Defined.

(** X22: a rejection by the browser is reported, not propagated: when
    [chrome.tabs.query] rejects, or [executeScript] rejects before anything
    runs in the page, each handler completes normally with its error prefix
    followed by the message of the rejection as an error status, logs
    nothing and leaves the page's world as it was. *)
Theorem click_reports_rejection
  (handler : Popup.P unit) (prefix : jsstring)
  (env : Popup.Env) (w : Popup.World) (error : Effect.JSError) :
  In (handler, prefix) PopupSamples.handlers ->
  (Popup.queriedTabs env = Effect.Throw error
   \/ exists tab others,
        Popup.queriedTabs env = Effect.Normal (tab :: others)
        /\ Popup.injection env (Popup.tabId tab) = Some error) ->
  handler env w
  = (Effect.Normal tt,
     Popup.statusShown w (prefix ++ Effect.errorMessage error) true).
Proof.
  intros Hin [Hq | (tab & others & Hq & Hi)];
    destruct Hin as [H | [H | [H | [H | []]]]]; injection H as <- <-;
    PopupFacts.run_click; rewrite Hq;
    cbn [Popup.firstTabId Popup.ret]; unfold Popup.executeScript;
    rewrite ?Hi; reflexivity.
Qed.

Lemma click_reports_rejection_witness :
  PopupHandlers.summaryClick
    {| Popup.queriedTabs := Effect.Normal [ {| Popup.tabId := 3 |} ];
       Popup.injection := fun _ => Some Sample.notAllowed;
       Popup.contentScriptLoaded := true;
       Popup.pageThrown := fun _ => None;
       Popup.page := fun _ => Sample.env Sample.twoEntries true;
       Popup.typeErrorMessage := Sample.v8Message |}
    PopupSamples.start
  = (Effect.Normal tt,
     Popup.statusShown PopupSamples.start
       (js "Error getting summary: Write permission denied.") true).
Proof.
  apply (@click_reports_rejection PopupHandlers.summaryClick
           (js "Error getting summary: ")
           {| Popup.queriedTabs := Effect.Normal [ {| Popup.tabId := 3 |} ];
              Popup.injection := fun _ => Some Sample.notAllowed;
              Popup.contentScriptLoaded := true;
              Popup.pageThrown := fun _ => None;
              Popup.page := fun _ => Sample.env Sample.twoEntries true;
              Popup.typeErrorMessage := Sample.v8Message |}
           PopupSamples.start Sample.notAllowed).
  - right. right. right. now left.
  - right. exists {| Popup.tabId := 3 |}, []. split; reflexivity.
Defined.
